(** * Instruction renderer: resolution and rendering of versioned instructions

    A shallow embedding of [src/instructions/instruction_renderer.py].

    The renderer only ever looks at the outside world through a handful of
    calls: [Path.exists], [Path.is_dir], [Path.iterdir], [open(...).read()],
    [spec.loader.exec_module], [env.get_template] and the call of a function
    object found in a loaded module.  These calls are gathered in the record
    [World]; every function of the module is then an ordinary function of a
    [World] and of its Python arguments, returning either a value or the
    exception it raises.  Logging has no influence on results and is left
    out.  Text is byte strings; the character classes of [str.strip],
    [str.isupper] and [int] are the ASCII ones.  [Path.exists] and
    [Path.is_dir] are taken to answer: an [OSError] that they let through
    (permission denied, name too long) is outside the model, and every
    statement below is relative to the answers they give.  Templates are the
    fragment of the templating language made of literal text and variable
    output; tests, filters and control flow are outside the model. *)

From Stdlib Require Import ZArith Ascii String List Lia DecimalString DecimalNat
  Sorted.
From stdpp Require Import base option list strings gmap fin_maps.

Local Open Scope string_scope.
Local Open Scope Z_scope.

(** ** Exceptions and results *)

Inductive exn : Type :=
| ValueError (msg : string)
| FileNotFoundError (msg : string)
| NotADirectoryError (msg : string)
| NameError (msg : string)
| UnboundLocalError (msg : string)
| AttributeError (msg : string)
| UndefinedError (msg : string)
| TemplateNotFound (name : string)
| OtherError (cls msg : string)
| SystemExit (code : string)
| KeyboardInterrupt.

(** The classes that derive from [Exception], the ones that
    [except Exception] catches.  [SystemExit] and [KeyboardInterrupt] derive
    from [BaseException] only; [OtherError] stands for any other subclass of
    [Exception]. *)
Definition is_exception (e : exn) : bool :=
  match e with
  | SystemExit _ | KeyboardInterrupt => false
  | _ => true
  end.

Inductive result (A : Type) : Type :=
| Ok (a : A)
| Raise (e : exn).
Arguments Ok {A} a.
Arguments Raise {A} e.

Definition bind {A B : Type} (r : result A) (k : A -> result B) : result B :=
  match r with
  | Ok a => k a
  | Raise e => Raise e
  end.

Notation "'do' x <- r ; k" := (bind r (fun x => k))
  (at level 10, x name, r at level 100, k at level 200).

Definition is_ok {A : Type} (r : result A) : bool :=
  match r with Ok _ => true | Raise _ => false end.

(** [FileNotFoundError] is what the specification calls NotFoundError. *)
Definition is_not_found {A : Type} (r : result A) : bool :=
  match r with Raise (FileNotFoundError _) => true | _ => false end.

(** ** Python strings *)

Module PyStr.

Definition code (c : ascii) : nat := nat_of_ascii c.

(** Whitespace of [str.isspace], ASCII range. *)
Definition is_space (c : ascii) : bool :=
  let n := code c in
  ((9 <=? n) && (n <=? 13) || (28 <=? n) && (n <=? 32))%nat.

Definition is_digit (c : ascii) : bool :=
  let n := code c in ((48 <=? n) && (n <=? 57))%nat.

Definition is_lower (c : ascii) : bool :=
  let n := code c in ((97 <=? n) && (n <=? 122))%nat.

Definition is_upper (c : ascii) : bool :=
  let n := code c in ((65 <=? n) && (n <=? 90))%nat.

Fixpoint lstrip (s : string) : string :=
  match s with
  | String c r => if is_space c then lstrip r else s
  | EmptyString => EmptyString
  end.

Fixpoint rstrip (s : string) : string :=
  match s with
  | String c r =>
      match rstrip r with
      | EmptyString => if is_space c then EmptyString else String c EmptyString
      | r' => String c r'
      end
  | EmptyString => EmptyString
  end.

(** [s.strip()] *)
Definition strip (s : string) : string := rstrip (lstrip s).

(** [s.startswith(p)] *)
Fixpoint startswith (p s : string) : bool :=
  match p, s with
  | EmptyString, _ => true
  | String a p', String b s' => Ascii.eqb a b && startswith p' s'
  | String _ _, EmptyString => false
  end.

(** [s[1:]] *)
Definition tail (s : string) : string :=
  match s with
  | String _ r => r
  | EmptyString => EmptyString
  end.

Fixpoint forallb (p : ascii -> bool) (s : string) : bool :=
  match s with
  | String c r => p c && forallb p r
  | EmptyString => true
  end.

Fixpoint existsb (p : ascii -> bool) (s : string) : bool :=
  match s with
  | String c r => p c || existsb p r
  | EmptyString => false
  end.

(** [s.isupper()]: no lower-case character and at least one upper-case one. *)
Definition isupper (s : string) : bool :=
  forallb (fun c => negb (is_lower c)) s && existsb is_upper s.

(** [s.replace(a, b)] for single characters. *)
Fixpoint replace (a b : ascii) (s : string) : string :=
  match s with
  | String c r => String (if Ascii.eqb c a then b else c) (replace a b r)
  | EmptyString => EmptyString
  end.

Definition digit_val (c : ascii) : option Z :=
  if is_digit c then Some (Z.of_nat (code c) - 48) else None.

(** The digit part of an integer literal: decimal digits, where a single
    underscore may separate two digits. [prev] tells whether the previous
    character was a digit. *)
Fixpoint int_digits (prev : bool) (acc : Z) (s : string) : option Z :=
  match s with
  | EmptyString => if prev then Some acc else None
  | String c r =>
      match digit_val c with
      | Some d => int_digits true (10 * acc + d) r
      | None =>
          if Ascii.eqb c "_" && prev then int_digits false acc r else None
      end
  end.

(** [int(s)] on a string: surrounding whitespace is dropped, one sign is
    allowed, base ten. [None] stands for the [ValueError]. *)
Definition int (s : string) : option Z :=
  match strip s with
  | String c r =>
      if Ascii.eqb c "+" then int_digits false 0 r
      else if Ascii.eqb c "-" then option_map Z.opp (int_digits false 0 r)
      else int_digits false 0 (String c r)
  | EmptyString => None
  end.

End PyStr.

(** ** Python objects, templates and the outside world *)

(** The values a loaded module binds: strings, function objects (named by an
    identifier that [call] interprets), any other object, of which only
    [str()] and the truth value are observed, and callable objects, which
    have an identifier for [call] besides. *)
Inductive pyobj : Type :=
| PStr (s : string)
| PFunc (id : nat)
| PObj (str : string) (truth : bool)
| PCallable (id : nat) (str : string) (truth : bool).

Definition py_str (o : pyobj) : string :=
  match o with
  | PStr s => s
  | PFunc _ => "<function>"
  | PObj s _ => s
  | PCallable _ s _ => s
  end.

(** [callable(o)]: functions, and the objects that can be called (classes,
    instances with [__call__]), which have a truth value of their own. *)
Definition callable (o : pyobj) : bool :=
  match o with PFunc _ | PCallable _ _ _ => true | _ => false end.

Definition truthy (o : pyobj) : bool :=
  match o with
  | PStr s => negb (String.eqb s "")
  | PFunc _ => true
  | PObj _ b => b
  | PCallable _ _ b => b
  end.

(** [o.strip()]: only strings have the method. *)
Definition strip_method (o : pyobj) : result string :=
  match o with
  | PStr s => Ok (PyStr.strip s)
  | _ => Raise (AttributeError "object has no attribute 'strip'")
  end.

(** A template, as far as the renderer depends on it: literal text and
    variable output [{{ x }}]. *)
Inductive segment : Type :=
| Lit (s : string)
| Var (x : string).

Definition template : Type := list segment.

Inductive undefined_policy : Type := Undefined | StrictUndefined.

Record Environment : Type := {
  undefined : undefined_policy;
  autoescape : bool;
  (** the names every template of the environment can resolve *)
  globals : gmap string pyobj
}.

Record World : Type := {
  INSTRUCTIONS_DIR : string;
  (** [Path.exists], [Path.is_dir] *)
  exists_ : string -> bool;
  is_dir : string -> bool;
  (** [Path.iterdir]: the names of the children, in listing order *)
  iterdir : string -> result (list string);
  (** [open(p).read()] *)
  read_text : string -> result string;
  (** [spec_from_file_location(name, p)] followed by [exec_module]: the
      attributes of the module *)
  exec_module : string -> string -> result (gmap string pyobj);
  (** [env.get_template(name)], relative to [INSTRUCTIONS_DIR] *)
  get_template : string -> result template;
  (** the call of a function object with keyword arguments *)
  call : nat -> gmap string pyobj -> result pyobj
}.

(** [a / b] on paths, and the same separator in f-strings *)
Definition joinpath (a b : string) : string := a +:+ "/" +:+ b.
Infix "</>" := joinpath (at level 40, left associativity).

(** An optional string argument tested with [if version:]. *)
Definition given (version : option string) : option string :=
  match version with
  | Some "" => None
  | v => v
  end.

(** Names a function body can resolve: the globals of the module, and the
    names the function itself binds by an [import]. *)
Definition module_globals : list string :=
  ["logging"; "Path"; "Dict"; "List"; "Optional"; "Any"; "Union"; "yaml";
   "Environment"; "FileSystemLoader"; "StrictUndefined"; "logger";
   "INSTRUCTIONS_DIR"; "env"; "_load_instruction_variables";
   "_load_instruction_composables_module"; "_load_instruction_composables";
   "render_template_instruction"; "compose_python_instruction";
   "compose_markdown_instruction"; "render_instruction"; "render_prompt"].

Definition name_bound (local_imports : list string) (x : string) : bool :=
  existsb (String.eqb x) (local_imports ++ module_globals).

(** [importlib.util.spec_from_file_location] and [exec_module], in a function
    whose own imports are [local_imports]. A path that ends in [.py] always
    has a spec and a loader. *)
Definition load_file (w : World) (local_imports : list string)
    (module_name file : string) : result (gmap string pyobj) :=
  if name_bound local_imports "importlib"
  then exec_module w module_name file
  else Raise (NameError "name 'importlib' is not defined").

(** ** The templating service *)

(** The globals an [Environment] starts with ([jinja2.defaults]); line 18
    passes none of its own.  The values are shown by their [str()], without
    the address in the text of the function. *)
Definition default_globals : gmap string pyobj :=
  {[ "range" := PObj "<class 'range'>" true;
     "dict" := PObj "<class 'dict'>" true;
     "lipsum" := PObj "<function generate_lorem_ipsum>" true;
     "cycler" := PObj "<class 'jinja2.utils.Cycler'>" true;
     "joiner" := PObj "<class 'jinja2.utils.Joiner'>" true;
     "namespace" := PObj "<class 'jinja2.utils.Namespace'>" true ]}.

Definition env : Environment :=
  {| undefined := StrictUndefined; autoescape := false;
     globals := default_globals |}.

(** A name is looked up in the context of the render first, in the globals
    of the environment next. *)
Definition resolve (e : Environment) (x : string) (ctx : gmap string pyobj)
  : option pyobj :=
  match ctx !! x with
  | Some o => Some o
  | None => globals e !! x
  end.

Definition escape_char (c : ascii) : string :=
  if Ascii.eqb c "&" then "&amp;"
  else if Ascii.eqb c "<" then "&lt;"
  else if Ascii.eqb c ">" then "&gt;"
  else if Ascii.eqb c (ascii_of_nat 34) then "&#34;"
  else if Ascii.eqb c "'" then "&#39;"
  else String c EmptyString.

Fixpoint escape (s : string) : string :=
  match s with
  | String c r => escape_char c +:+ escape r
  | EmptyString => EmptyString
  end.

(** The message of the undefined-variable error. *)
Definition undefined_message (x : string) : string :=
  "'" +:+ x +:+ "' is undefined".

Definition output (e : Environment) (x : string) (ctx : gmap string pyobj)
  : result string :=
  match resolve e x ctx with
  | Some o => Ok (if autoescape e then escape (py_str o) else py_str o)
  | None =>
      match undefined e with
      | StrictUndefined => Raise (UndefinedError (undefined_message x))
      | Undefined => Ok ""
      end
  end.

(** [template.render] with the context as keywords *)
Fixpoint jinja_render (e : Environment) (t : template)
    (ctx : gmap string pyobj) : result string :=
  match t with
  | [] => Ok ""
  | Lit s :: r => do out <- jinja_render e r ctx; Ok (s +:+ out)
  | Var x :: r =>
      do v <- output e x ctx;
      do out <- jinja_render e r ctx;
      Ok (v +:+ out)
  end.

(** ** Version directories *)

(** [int(d.name[1:])], the key of [max] and of [sort] *)
Definition version_key (name : string) : result Z :=
  match PyStr.int (PyStr.tail name) with
  | Some k => Ok k
  | None =>
      Raise (ValueError ("invalid literal for int() with base 10: '"
                         +:+ PyStr.tail name +:+ "'"))
  end.

(** The keys are computed element by element: the first name whose suffix is
    no integer literal raises. *)
Fixpoint keyed (names : list string) : result (list (string * Z)) :=
  match names with
  | [] => Ok []
  | n :: r =>
      do k <- version_key n;
      do kr <- keyed r;
      Ok ((n, k) :: kr)
  end.

(** [max(l, key=...)] keeps the first of the elements with the largest key. *)
Fixpoint max_from (best : string * Z) (l : list (string * Z)) : string * Z :=
  match l with
  | [] => best
  | x :: r => max_from (if best.2 <? x.2 then x else best) r
  end.

Definition py_max (names : list string) : result string :=
  do ks <- keyed names;
  match ks with
  | [] => Raise (ValueError "max() arg is an empty sequence")
  | x :: r => Ok (max_from x r).1
  end.

(** [l.sort(key=..., reverse=True)]: descending and stable, elements with the
    same key stay in their original order. *)
Fixpoint insert_desc (x : string * Z) (l : list (string * Z))
  : list (string * Z) :=
  match l with
  | [] => [x]
  | y :: r => if y.2 <=? x.2 then x :: y :: r else y :: insert_desc x r
  end.

Definition sort_desc (l : list (string * Z)) : list (string * Z) :=
  fold_right insert_desc [] l.

Definition sorted_desc (names : list string) : result (list string) :=
  do ks <- keyed names;
  Ok (map fst (sort_desc ks)).

(** [{**instruction_vars, **context_vars}] *)
Definition merge_context (instruction_vars context_vars : gmap string pyobj)
  : gmap string pyobj :=
  context_vars ∪ instruction_vars.

(** The attribute names the two loaders keep. *)
Definition public_constant (name : string) : bool :=
  negb (PyStr.startswith "_" name) && PyStr.isupper name.

Definition public_callable (name : string) (value : pyobj) : bool :=
  negb (PyStr.startswith "_" name) && callable value.

(** [import importlib.util] inside a function body binds [importlib] there
    and nowhere else. *)
Definition load_variables_imports : list string := ["importlib"].
Definition load_composables_imports : list string := ["importlib"].
Definition compose_python_imports : list string := [].

Definition module_name (instruction_path suffix : string) : string :=
  PyStr.replace "/" "_" instruction_path +:+ suffix.

Section Renderer.

Variable w : World.

(** [[d for d in dir.iterdir() if d.is_dir() and d.name.startswith('v')]] *)
Definition version_dirs (dir : string) : result (list string) :=
  do names <- iterdir w dir;
  Ok (List.filter
        (fun n => is_dir w (dir </> n) && PyStr.startswith "v" n) names).

(** *** [_load_instruction_variables] *)

(** Lines 37-57: which file holds the values, if any. *)
Definition values_path (instruction_path : string) (version : option string)
  : result (option string) :=
  do version_dir <-
    match given version with
    | Some v => Ok (Some (INSTRUCTIONS_DIR w </> instruction_path </> v))
    | None =>
        let instruction_dir := INSTRUCTIONS_DIR w </> instruction_path in
        if negb (exists_ w instruction_dir) then Ok None
        else
          do vds <- version_dirs instruction_dir;
          match vds with
          | [] => Ok (Some instruction_dir)
          | _ :: _ =>
              do latest <- py_max vds;
              Ok (Some (instruction_dir </> latest))
          end
    end;
  match version_dir with
  | None => Ok None
  | Some d =>
      if exists_ w (d </> "values.py") then Ok (Some (d </> "values.py"))
      else if exists_ w (d </> "variables.py")
           then Ok (Some (d </> "variables.py"))
           else Ok None
  end.

(** Lines 59-82: the load, inside [try ... except Exception]: an exception
    of another kind is not caught. *)
Definition _load_instruction_variables (instruction_path : string)
    (version : option string) : result (gmap string pyobj) :=
  do vp <- values_path instruction_path version;
  match vp with
  | None => Ok ∅
  | Some version_path =>
      match load_file w load_variables_imports
              (module_name instruction_path "_variables") version_path with
      | Ok variables_module =>
          Ok (filter (fun kv => public_constant kv.1 = true) variables_module)
      | Raise e => if is_exception e then Ok ∅ else Raise e
      end
  end.

(** *** [_load_instruction_composables] *)

Definition composables_path (instruction_path : string)
    (version : option string) : result (option string) :=
  match given version with
  | Some v =>
      Ok (Some (INSTRUCTIONS_DIR w </> instruction_path </> v
                </> "composables.py"))
  | None =>
      let instruction_dir := INSTRUCTIONS_DIR w </> instruction_path in
      if exists_ w instruction_dir then
        do vds <- version_dirs instruction_dir;
        match vds with
        | _ :: _ =>
            do latest <- py_max vds;
            Ok (Some (instruction_dir </> latest </> "composables.py"))
        | [] => Ok (Some (instruction_dir </> "composables.py"))
        end
      else Ok None
  end.

Definition _load_instruction_composables (instruction_path : string)
    (version : option string) : result (gmap string pyobj) :=
  do cp <- composables_path instruction_path version;
  match cp with
  | None => Ok ∅
  | Some path =>
      if negb (exists_ w path) then Ok ∅
      else
        match load_file w load_composables_imports
                (module_name instruction_path "_composables") path with
        | Ok composables_module =>
            Ok (filter (fun kv => public_callable kv.1 kv.2 = true)
                       composables_module)
        | Raise e => if is_exception e then Ok ∅ else Raise e
        end
  end.

(** The call [o(kwargs)] of an object. *)
Definition py_call (o : pyobj) (kwargs : gmap string pyobj) : result pyobj :=
  match o with
  | PFunc id | PCallable id _ _ => call w id kwargs
  | _ => Raise (OtherError "TypeError" "object is not callable")
  end.

(** *** [render_template_instruction] *)

(** Lines 218-237: the name of the template, relative to the loader root. *)
Definition template_path (instruction_path : string)
    (version : option string) : result string :=
  match given version with
  | Some v => Ok (instruction_path </> v </> "instruction.j2")
  | None =>
      let instruction_dir := INSTRUCTIONS_DIR w </> instruction_path in
      if exists_ w instruction_dir then
        do vds <- version_dirs instruction_dir;
        do sorted <- sorted_desc vds;
        match List.find
                (fun d => exists_ w (INSTRUCTIONS_DIR w </>
                             (instruction_path </> d </> "instruction.j2")))
                sorted with
        | Some d => Ok (instruction_path </> d </> "instruction.j2")
        | None =>
            Raise (FileNotFoundError
                     ("No template found in any version of "
                      +:+ instruction_path))
        end
      else
        Raise (FileNotFoundError
                 ("Instruction directory not found: " +:+ instruction_path))
  end.

Definition render_template_instruction (instruction_path : string)
    (version : option string) (context_vars : gmap string pyobj)
  : result string :=
  if String.eqb instruction_path "" then
    Raise (ValueError "Instruction path must be a non-empty string")
  else
    do tp <- template_path instruction_path version;
    do t <- get_template w tp;
    do instruction_vars <- _load_instruction_variables instruction_path version;
    let merged_context := merge_context instruction_vars context_vars in
    do out <- jinja_render env t merged_context;
    Ok (PyStr.strip out).

(** *** [compose_python_instruction] *)

(** [composables.get('compose_instruction') or
    composables.get('build_instruction')], then [if main_composer:] *)
Definition main_composer (composables : gmap string pyobj) : option pyobj :=
  let chosen :=
    match composables !! "compose_instruction" with
    | Some f => if truthy f then Some f else composables !! "build_instruction"
    | None => composables !! "build_instruction"
    end in
  match chosen with
  | Some f => if truthy f then Some f else None
  | None => None
  end.

(** Lines 290-308: where the fallback looks for [instruction.py]. *)
Definition instruction_py_path (instruction_path : string)
    (version : option string) : result string :=
  let base := INSTRUCTIONS_DIR w </> instruction_path in
  do path <-
    match given version with
    | Some v => Ok (base </> v </> "instruction.py")
    | None =>
        if exists_ w base then
          do vds <- version_dirs base;
          do sorted <- sorted_desc vds;
          match List.find
                  (fun d => exists_ w (base </> d </> "instruction.py"))
                  sorted with
          | Some d => Ok (base </> d </> "instruction.py")
          | None =>
              Raise (FileNotFoundError
                       ("No instruction.py found in any version of "
                        +:+ instruction_path))
          end
        else Ok base
    end;
  if exists_ w path then Ok path
  else Raise (FileNotFoundError ("Instruction file not found: " +:+ path)).

(** Lines 310-328: the load of [instruction.py] and what it exposes. *)
Definition instruction_py_fallback_in (local_imports : list string)
    (instruction_path : string) (version : option string)
    (context_vars : gmap string pyobj) : result string :=
  do path <- instruction_py_path instruction_path version;
  do instruction_module <-
    load_file w local_imports
      (module_name instruction_path "_instruction") path;
  match instruction_module !! "INSTRUCTION" with
  | Some c => Ok (PyStr.strip (py_str c))
  | None =>
      match instruction_module !! "compose_instruction" with
      | Some composer =>
          do r <- py_call composer context_vars;
          strip_method r
      | None =>
          Raise (FileNotFoundError
                   ("No valid composition method found for instruction: "
                    +:+ instruction_path))
      end
  end.

(** The body runs with the imports of [compose_python_instruction]. *)
Definition instruction_py_fallback
  : string -> option string -> gmap string pyobj -> result string :=
  instruction_py_fallback_in compose_python_imports.

Definition compose_python_instruction (instruction_path : string)
    (version : option string) (context_vars : gmap string pyobj)
  : result string :=
  if String.eqb instruction_path "" then
    Raise (ValueError "Instruction path must be a non-empty string")
  else
    do composables <- _load_instruction_composables instruction_path version;
    if decide (composables = ∅) then
      Raise (FileNotFoundError
               ("No composables found for instruction: " +:+ instruction_path))
    else
      match main_composer composables with
      | Some f =>
          do r <- py_call f context_vars;
          strip_method r
      | None => instruction_py_fallback instruction_path version context_vars
      end.

(** *** [compose_markdown_instruction] *)

Definition instruction_md_path (instruction_path : string)
    (version : option string) : result string :=
  match given version with
  | Some v =>
      Ok (INSTRUCTIONS_DIR w </> instruction_path </> v </> "instruction.md")
  | None =>
      let instruction_dir := INSTRUCTIONS_DIR w </> instruction_path in
      if exists_ w instruction_dir then
        do vds <- version_dirs instruction_dir;
        do sorted <- sorted_desc vds;
        match List.find
                (fun d => exists_ w (instruction_dir </> d </> "instruction.md"))
                sorted with
        | Some d => Ok (instruction_dir </> d </> "instruction.md")
        | None =>
            Raise (FileNotFoundError
                     ("No instruction.md found in any version of "
                      +:+ instruction_path))
        end
      else
        (* the variable was never assigned when line 370 reads it *)
        Raise (UnboundLocalError
                 "cannot access local variable 'instruction_md_path'")
  end.

Definition compose_markdown_instruction (instruction_path : string)
    (version : option string) (context_vars : gmap string pyobj)
  : result string :=
  if String.eqb instruction_path "" then
    Raise (ValueError "Instruction path must be a non-empty string")
  else
    do path <- instruction_md_path instruction_path version;
    if negb (exists_ w path) then
      Raise (FileNotFoundError ("Markdown instruction not found: " +:+ path))
    else
      do text <- read_text w path;
      Ok (PyStr.strip text).

(** *** [render_instruction] *)

(** Lines 402-416: the directory whose files decide the strategy. *)
Definition base_path (instruction_path : string) (version : option string)
  : result string :=
  match given version with
  | Some v => Ok (INSTRUCTIONS_DIR w </> instruction_path </> v)
  | None =>
      let instruction_dir := INSTRUCTIONS_DIR w </> instruction_path in
      if exists_ w instruction_dir then
        do vds <- version_dirs instruction_dir;
        match vds with
        | _ :: _ =>
            do latest_version <- py_max vds;
            Ok (instruction_dir </> latest_version)
        | [] =>
            Raise (FileNotFoundError
                     ("No version directories found in " +:+ instruction_path))
        end
      else
        Raise (FileNotFoundError
                 ("Instruction directory not found: " +:+ instruction_path))
  end.

Definition render_instruction (instruction_path : string)
    (version : option string) (context_vars : gmap string pyobj)
  : result string :=
  do base <- base_path instruction_path version;
  if exists_ w (base </> "instruction.j2") then
    render_template_instruction instruction_path version context_vars
  else if exists_ w (base </> "instruction.py")
          || exists_ w (base </> "composables.py") then
    compose_python_instruction instruction_path version context_vars
  else if exists_ w (base </> "instruction.md") then
    compose_markdown_instruction instruction_path version context_vars
  else
    Raise (FileNotFoundError ("No valid instruction found in: " +:+ base)).

End Renderer.

(** ** Concrete worlds

    A finite table from full paths to what is found there gives a [World] on
    which every function above computes. *)

Module Fixture.

Inductive entry : Type :=
| EDir (children : list string)
| EText (text : string)
| EPy (r : result (list (string * pyobj)))
| EJ2 (t : template).

Definition lookup_entry (files : list (string * entry)) (p : string)
  : option entry :=
  option_map snd (List.find (fun kv => String.eqb kv.1 p) files).

Definition world (root : string) (files : list (string * entry))
    (fn : nat -> gmap string pyobj -> result pyobj) : World :=
  {| INSTRUCTIONS_DIR := root;
     exists_ p := match lookup_entry files p with Some _ => true | None => false end;
     is_dir p := match lookup_entry files p with Some (EDir _) => true | _ => false end;
     iterdir p :=
       match lookup_entry files p with
       | Some (EDir names) => Ok names
       | Some _ => Raise (NotADirectoryError p)
       | None => Raise (FileNotFoundError p)
       end;
     read_text p :=
       match lookup_entry files p with
       | Some (EText s) => Ok s
       | Some (EDir _) => Raise (OtherError "IsADirectoryError" p)
       | Some _ => Ok ""
       | None => Raise (FileNotFoundError p)
       end;
     exec_module _ p :=
       match lookup_entry files p with
       | Some (EPy (Ok bindings)) => Ok (list_to_map bindings)
       | Some (EPy (Raise e)) => Raise e
       | Some _ => Raise (OtherError "SyntaxError" p)
       | None => Raise (FileNotFoundError p)
       end;
     get_template name :=
       match lookup_entry files (root </> name) with
       | Some (EJ2 t) => Ok t
       | _ => Raise (TemplateNotFound name)
       end;
     call := fn |}.

Definition no_functions (id : nat) (kwargs : gmap string pyobj)
  : result pyobj :=
  Raise (OtherError "TypeError" "unknown function").

(** Scenario A: only [v1/instruction.md]. *)
Definition static_only : World :=
  world "/srv" [
    ("/srv/greet", EDir ["v1"]);
    ("/srv/greet/v1", EDir ["instruction.md"]);
    ("/srv/greet/v1/instruction.md", EText "Hello
")
  ] no_functions.

(** Scenario B: a template and its values in [v2]. *)
Definition templated : World :=
  world "/srv" [
    ("/srv/hi", EDir ["v2"]);
    ("/srv/hi/v2", EDir ["instruction.j2"; "values.py"]);
    ("/srv/hi/v2/instruction.j2", EJ2 [Lit "Hi "; Var "NAME"]);
    ("/srv/hi/v2/values.py",
      EPy (Ok [("NAME", PStr "default"); ("_PRIVATE", PStr "x");
               ("helper", PStr "y")]))
  ] no_functions.

(** Scenario D: a composables module with the canonical composer, which
    returns its [name] keyword surrounded by blanks. *)
Definition composer_fn (id : nat) (kwargs : gmap string pyobj)
  : result pyobj :=
  match id with
  | O => Ok (PStr ("  composed for "
                   +:+ from_option py_str "nobody" (kwargs !! "name")
                   +:+ " "))
  | _ => Raise (OtherError "TypeError" "unknown function")
  end.

Definition composed : World :=
  world "/srv" [
    ("/srv/router", EDir ["v1"]);
    ("/srv/router/v1", EDir ["composables.py"]);
    ("/srv/router/v1/composables.py",
      EPy (Ok [("compose_instruction", PFunc 0); ("LIMIT", PObj "3" true)]))
  ] composer_fn.

(** A version directory that holds all three kinds of artifact. *)
Definition mixed : World :=
  world "/srv" [
    ("/srv/mix", EDir ["v1"]);
    ("/srv/mix/v1", EDir ["instruction.md"; "composables.py"; "instruction.j2"]);
    ("/srv/mix/v1/instruction.md", EText "static text");
    ("/srv/mix/v1/composables.py", EPy (Ok [("compose_instruction", PFunc 0)]));
    ("/srv/mix/v1/instruction.j2", EJ2 [Lit " from the template "])
  ] composer_fn.

(** Composition artifacts next to a static document, no template. *)
Definition composed_and_static : World :=
  world "/srv" [
    ("/srv/mix", EDir ["v1"]);
    ("/srv/mix/v1", EDir ["instruction.md"; "composables.py"]);
    ("/srv/mix/v1/instruction.md", EText "static text");
    ("/srv/mix/v1/composables.py", EPy (Ok [("compose_instruction", PFunc 0)]))
  ] composer_fn.

(** Ten versions, listed in no particular order, next to a plain file. *)
Definition ten_versions : World :=
  world "/srv" [
    ("/srv/many",
      EDir ["v9"; "v10"; "v2"; "README.md"; "v1"; "v7"; "v3"; "v5"; "v4";
            "v8"; "v6"]);
    ("/srv/many/README.md", EText "notes");
    ("/srv/many/v1", EDir []); ("/srv/many/v2", EDir []);
    ("/srv/many/v3", EDir []); ("/srv/many/v4", EDir []);
    ("/srv/many/v5", EDir []); ("/srv/many/v6", EDir []);
    ("/srv/many/v7", EDir []); ("/srv/many/v8", EDir []);
    ("/srv/many/v9", EDir ["instruction.md"]);
    ("/srv/many/v9/instruction.md", EText "ninth");
    ("/srv/many/v10", EDir ["instruction.md"]);
    ("/srv/many/v10/instruction.md", EText "tenth")
  ] no_functions.

(** An instruction directory without any version directory. *)
Definition unversioned : World :=
  world "/srv" [
    ("/srv/flat", EDir ["values.py"; "composables.py"; "notes"]);
    ("/srv/flat/notes", EDir []);
    ("/srv/flat/values.py", EPy (Ok [("TONE", PStr "formal")]));
    ("/srv/flat/composables.py", EPy (Ok [("helper", PFunc 1)]))
  ] no_functions.

(** A version directory next to a directory that merely starts with [v]. *)
Definition with_venv : World :=
  world "/srv" [
    ("/srv/greet", EDir ["v1"; "venv"]);
    ("/srv/greet/venv", EDir []);
    ("/srv/greet/v1", EDir ["instruction.md"]);
    ("/srv/greet/v1/instruction.md", EText "Hello")
  ] no_functions.

(** Three versions, of which only the oldest holds a template. *)
Definition older_template : World :=
  world "/srv" [
    ("/srv/old", EDir ["v2"; "v1"; "v3"]);
    ("/srv/old/v1", EDir ["instruction.j2"]);
    ("/srv/old/v1/instruction.j2", EJ2 [Lit "first draft"]);
    ("/srv/old/v2", EDir ["instruction.md"]);
    ("/srv/old/v2/instruction.md", EText "second");
    ("/srv/old/v3", EDir ["values.py"]);
    ("/srv/old/v3/values.py", EPy (Ok [("TONE", PStr "formal")]))
  ] no_functions.

(** A template that outputs [X] and [WHO]; the values file binds [X]. *)
Definition two_variables : World :=
  world "/srv" [
    ("/srv/ask", EDir ["v1"]);
    ("/srv/ask/v1", EDir ["instruction.j2"; "values.py"]);
    ("/srv/ask/v1/instruction.j2", EJ2 [Var "X"; Lit " asks "; Var "WHO"]);
    ("/srv/ask/v1/values.py", EPy (Ok [("X", PStr "a")]))
  ] no_functions.

(** A values file whose execution raises, and a legacy-named one. *)
Definition broken_values : World :=
  world "/srv" [
    ("/srv/bad", EDir ["v1"]);
    ("/srv/bad/v1", EDir ["values.py"]);
    ("/srv/bad/v1/values.py",
      EPy (Raise (OtherError "ZeroDivisionError" "division by zero")));
    ("/srv/legacy", EDir ["v1"]);
    ("/srv/legacy/v1", EDir ["variables.py"]);
    ("/srv/legacy/v1/variables.py",
      EPy (Ok [("TONE", PStr "formal"); ("Tone", PStr "mixed case");
               ("_TONE", PStr "private"); ("__name__", PStr "legacy_variables");
               ("MAX_ITEMS", PObj "3" true)]))
  ] no_functions.

(** Only [instruction.py], with the precomputed constant. *)
Definition function_only : World :=
  world "/srv" [
    ("/srv/solo", EDir ["v1"]);
    ("/srv/solo/v1", EDir ["instruction.py"]);
    ("/srv/solo/v1/instruction.py",
      EPy (Ok [("INSTRUCTION", PStr " Be brief. ")]))
  ] no_functions.

(** Composables without a main composer, next to [instruction.py]. *)
Definition helper_and_constant : World :=
  world "/srv" [
    ("/srv/fb", EDir ["v1"]);
    ("/srv/fb/v1", EDir ["composables.py"; "instruction.py"]);
    ("/srv/fb/v1/composables.py", EPy (Ok [("helper", PFunc 1)]));
    ("/srv/fb/v1/instruction.py",
      EPy (Ok [("INSTRUCTION", PStr " Be brief. ")]))
  ] no_functions.

(** The same, where [instruction.py] exposes the composing function. *)
Definition helper_and_composer : World :=
  world "/srv" [
    ("/srv/fb", EDir ["v1"]);
    ("/srv/fb/v1", EDir ["composables.py"; "instruction.py"]);
    ("/srv/fb/v1/composables.py", EPy (Ok [("helper", PFunc 1)]));
    ("/srv/fb/v1/instruction.py",
      EPy (Ok [("compose_instruction", PFunc 0)]))
  ] composer_fn.

(** Composables without a main composer and no [instruction.py]. *)
Definition helper_only : World :=
  world "/srv" [
    ("/srv/fb", EDir ["v1"]);
    ("/srv/fb/v1", EDir ["composables.py"]);
    ("/srv/fb/v1/composables.py", EPy (Ok [("helper", PFunc 1)]))
  ] no_functions.

End Fixture.

(** ** Vocabulary of the statements *)

(** The canonical name of version [k]: [v] and the decimal digits of [k]. *)
Definition vname (k : nat) : string :=
  "v" +:+ NilEmpty.string_of_uint (Nat.to_uint k).

(** A directory name whose suffix [int] accepts. *)
Definition numbered (name : string) : Prop := is_ok (version_key name) = true.

(** The key of a name, [0] where [int] raises. *)
Definition zkey (name : string) : Z :=
  match version_key name with Ok k => k | Raise _ => 0 end.

(** Descending order of keys, on keyed pairs and on names. *)
Definition desc (a b : string * Z) : Prop := b.2 <= a.2.
Definition name_desc (a b : string) : Prop := zkey b <= zkey a.

(** ** The module loader

    [_load_instruction_composables_module] (lines 85-137) first imports the
    composables through the package hierarchy and only then from the file.
    [importlib.import_module] is one more call to the outside.  Both
    [try] blocks catch [Exception] only. *)

Definition load_module_imports : list string := ["importlib"].

(** ["messages.instructions." + instruction_path.replace("/", ".") + "."
    + version_name + ".composables"] *)
Definition package_path (instruction_path version_name : string) : string :=
  "messages.instructions." +:+ PyStr.replace "/" "." instruction_path
  +:+ "." +:+ version_name +:+ ".composables".

Section ModuleLoader.

Variable w : World.
Variable import_module : string -> result (gmap string pyobj).

(** Lines 100-110: the name of the version directory, [None] for the early
    [return None]. *)
Definition module_version_name (instruction_path : string)
    (version : option string) : result (option string) :=
  match given version with
  | Some v => Ok (Some v)
  | None =>
      let instruction_dir := INSTRUCTIONS_DIR w </> instruction_path in
      if negb (exists_ w instruction_dir) then Ok None
      else
        do vds <- version_dirs w instruction_dir;
        match vds with
        | [] => Ok None
        | _ :: _ => do latest <- py_max vds; Ok (Some latest)
        end
  end.

Definition _load_instruction_composables_module (instruction_path : string)
    (version : option string) : result (option (gmap string pyobj)) :=
  do name <- module_version_name instruction_path version;
  match name with
  | None => Ok None
  | Some version_name =>
      let composables_path :=
        INSTRUCTIONS_DIR w </> instruction_path </> version_name
        </> "composables.py" in
      if negb (exists_ w composables_path) then Ok None
      else
        match import_module (package_path instruction_path version_name) with
        | Ok m => Ok (Some m)
        | Raise e =>
            if is_exception e then
              match load_file w load_module_imports
                      (module_name instruction_path "_composables")
                      composables_path with
              | Ok composables_module => Ok (Some composables_module)
              | Raise e' => if is_exception e' then Ok None else Raise e'
              end
            else Raise e
        end
  end.

End ModuleLoader.

(** [render_prompt = render_instruction] (line 430) *)
Definition render_prompt
  : World -> string -> option string -> gmap string pyobj -> result string :=
  render_instruction.

(** ** The assistant instruction, version 1

    [src/projects/instructions/assistant/v1/composables.py].  The five text
    blocks come from [values.py], which takes most of them from modules
    outside this tree; they are parameters here.  The optional arguments are
    strings or [None]. *)

Module Assistant.

(** [l.insert(i, x)] for [i >= 0]: past the end it appends. *)
Definition list_insert_at {A : Type} (i : nat) (x : A) (l : list A) : list A :=
  take i l ++ x :: drop i l.

(** [if arg: components.insert(i, arg)] and [if arg: components.append(arg)] *)
Definition insert_if (i : nat) (arg : option string) (l : list string)
  : list string :=
  match given arg with
  | Some s => list_insert_at i s l
  | None => l
  end.

Definition append_if (arg : option string) (l : list string) : list string :=
  match given arg with
  | Some s => l ++ [s]
  | None => l
  end.

(** [sep.join(l)] *)
Fixpoint join (sep : string) (l : list string) : string :=
  match l with
  | [] => ""
  | [x] => x
  | x :: r => x +:+ sep +:+ join sep r
  end.

Definition blank_line : string :=
  String (ascii_of_nat 10) (String (ascii_of_nat 10) EmptyString).

Section Composables.

Variables OPERATING_PRINCIPLES AGENT_CAPABILITIES HR_KNOWLEDGE
          BASE_FORMATTING CONVERSATIONAL_GUARDRAIL : string.

Definition core : list string :=
  [OPERATING_PRINCIPLES; AGENT_CAPABILITIES; HR_KNOWLEDGE; BASE_FORMATTING;
   CONVERSATIONAL_GUARDRAIL].

(** The list [components] when the function reaches its [return]. *)
Definition components
    (system_blocks agent_skills agents_as_tools handoffs tool_calls
     mcp_servers dynamic_run_context instructions_append : option string)
  : list string :=
  let c := core in
  let c := insert_if 0 system_blocks c in
  let c := insert_if 3 agent_skills c in
  let c := append_if agents_as_tools c in
  let c := append_if handoffs c in
  let c := append_if tool_calls c in
  let c := append_if mcp_servers c in
  let c := append_if dynamic_run_context c in
  let c := append_if instructions_append c in
  c.

Definition compose_full_instruction
    (system_blocks agent_skills agents_as_tools handoffs tool_calls
     mcp_servers dynamic_run_context instructions_append : option string)
  : string :=
  join blank_line
    (components system_blocks agent_skills agents_as_tools handoffs tool_calls
       mcp_servers dynamic_run_context instructions_append).

End Composables.

(** An argument as a list: empty when it is [None] or the empty string. *)
Definition supplied (arg : option string) : list string :=
  match given arg with
  | Some s => [s]
  | None => []
  end.

End Assistant.

(** ** More vocabulary and worlds *)

Definition is_value_error {A : Type} (r : result A) : bool :=
  match r with Raise (ValueError _) => true | _ => false end.

Definition is_unbound_local {A : Type} (r : result A) : bool :=
  match r with Raise (UnboundLocalError _) => true | _ => false end.

Module Trees.

Import Fixture.

(** The template is in [v1] only, the values differ between [v1] and [v3]. *)
Definition values_of_latest : World :=
  world "/srv" [
    ("/srv/tone", EDir ["v1"; "v3"; "v2"]);
    ("/srv/tone/v1", EDir ["instruction.j2"; "values.py"]);
    ("/srv/tone/v1/instruction.j2", EJ2 [Lit "Be "; Var "TONE"]);
    ("/srv/tone/v1/values.py", EPy (Ok [("TONE", PStr "casual")]));
    ("/srv/tone/v2", EDir []);
    ("/srv/tone/v3", EDir ["values.py"]);
    ("/srv/tone/v3/values.py", EPy (Ok [("TONE", PStr "formal")]))
  ] no_functions.

(** Static documents in [v1] and [v2], a later version without one. *)
Definition static_versions : World :=
  world "/srv" [
    ("/srv/doc", EDir ["v3"; "v1"; "v2"]);
    ("/srv/doc/v1", EDir ["instruction.md"]);
    ("/srv/doc/v1/instruction.md", EText "first");
    ("/srv/doc/v2", EDir ["instruction.md"]);
    ("/srv/doc/v2/instruction.md", EText "
  second  ");
    ("/srv/doc/v3", EDir ["values.py"]);
    ("/srv/doc/v3/values.py", EPy (Ok [("TONE", PStr "formal")]))
  ] no_functions.

(** Both composers, a private helper and a constant in one module. *)
Definition both_fn (id : nat) (kwargs : gmap string pyobj) : result pyobj :=
  match id with
  | O => Ok (PStr " canonical ")
  | S O => Ok (PStr " legacy ")
  | S (S O) => Raise (OtherError "KeyError" "name")
  | _ => Ok (PObj "42" true)
  end.

Definition both_composers : World :=
  world "/srv" [
    ("/srv/both", EDir ["v1"]);
    ("/srv/both/v1", EDir ["composables.py"]);
    ("/srv/both/v1/composables.py",
      EPy (Ok [("build_instruction", PFunc 1); ("compose_instruction", PFunc 0);
               ("_private", PFunc 3); ("LIMIT", PObj "3" true)]));
    ("/srv/legacy", EDir ["v1"]);
    ("/srv/legacy/v1", EDir ["composables.py"]);
    ("/srv/legacy/v1/composables.py", EPy (Ok [("build_instruction", PFunc 1)]));
    ("/srv/failing", EDir ["v1"]);
    ("/srv/failing/v1", EDir ["composables.py"]);
    ("/srv/failing/v1/composables.py",
      EPy (Ok [("compose_instruction", PFunc 2)]));
    ("/srv/number", EDir ["v1"]);
    ("/srv/number/v1", EDir ["composables.py"]);
    ("/srv/number/v1/composables.py",
      EPy (Ok [("compose_instruction", PFunc 3)]))
  ] both_fn.


(** Package imports: only the assistant is importable. *)
Definition importer (name : string) : result (gmap string pyobj) :=
  if String.eqb name "messages.instructions.assistant.v1.composables"
  then Ok {[ "compose_full_instruction" := PFunc 0 ]}
  else Raise (OtherError "ModuleNotFoundError" name).



(** Two directories with the same key, [v1] and [v01]. *)
Definition tied_versions : World :=
  world "/srv" [
    ("/srv/tie", EDir ["v0"; "v01"; "v1"]);
    ("/srv/tie/v0", EDir []);
    ("/srv/tie/v01", EDir ["instruction.md"]);
    ("/srv/tie/v01/instruction.md", EText "from v01");
    ("/srv/tie/v1", EDir ["instruction.md"]);
    ("/srv/tie/v1/instruction.md", EText "from v1")
  ] no_functions.

End Trees.

(** * Properties *)

(** One step of a computation in the result monad. *)
Ltac step H := rewrite H; cbn [bind].

(** ** The string functions on examples *)

Example strip_ex : PyStr.strip "  Hello world
 " = "Hello world".
Proof. reflexivity. Qed.

Example isupper_ex :
  PyStr.isupper "HR_KNOWLEDGE" = true /\ PyStr.isupper "Path" = false /\
  PyStr.isupper "_" = false /\ PyStr.isupper "A1" = true.
Proof. repeat split. Qed.

Example int_ex :
  PyStr.int "12" = Some 12 /\ PyStr.int "007" = Some 7 /\
  PyStr.int " -3 " = Some (-3) /\ PyStr.int "1_0" = Some 10 /\
  PyStr.int "env" = None /\ PyStr.int "" = None /\ PyStr.int "1__0" = None.
Proof. repeat split. Qed.

(** ** The end-to-end scenarios *)

Example scenario_A :
  render_instruction Fixture.static_only "greet" None ∅ = Ok "Hello".
Proof. vm_compute. reflexivity. Qed.

Example scenario_B_default :
  render_instruction Fixture.templated "hi" None ∅ = Ok "Hi default".
Proof. vm_compute. reflexivity. Qed.

Example scenario_B_lowercase_key :
  render_instruction Fixture.templated "hi" None {[ "name" := PStr "Ann" ]}
  = Ok "Hi default".
Proof. vm_compute. reflexivity. Qed.

Example scenario_B_override :
  render_instruction Fixture.templated "hi" None {[ "NAME" := PStr "Ann" ]}
  = Ok "Hi Ann".
Proof. vm_compute. reflexivity. Qed.

Example scenario_C_missing_path :
  is_not_found (render_instruction Fixture.static_only "nowhere" None ∅) = true.
Proof. vm_compute. reflexivity. Qed.

Example scenario_C_missing_version :
  render_instruction Fixture.static_only "greet" (Some "v99") ∅
  = Raise (FileNotFoundError "No valid instruction found in: /srv/greet/v99").
Proof. vm_compute. reflexivity. Qed.

Example scenario_D :
  compose_python_instruction Fixture.composed "router" None
    {[ "name" := PStr "Ann" ]}
  = Ok "composed for Ann".
Proof. vm_compute. reflexivity. Qed.

(** ** Integer literals and version names *)

Section Decimal.

Import PyStr.

Lemma rstrip_no_space s :
  forallb (fun c => negb (is_space c)) s = true -> rstrip s = s.
Proof.
  induction s as [|c r IH]; simpl; [done|].
  intros [Hc Hr]%andb_prop. rewrite (IH Hr).
  destruct r; [|done]. by destruct (is_space c).
Qed.

Lemma strip_no_space s :
  forallb (fun c => negb (is_space c)) s = true -> strip s = s.
Proof.
  intros H. unfold strip.
  destruct s as [|c r]; [done|].
  simpl in H. apply andb_prop in H as [Hc Hr].
  simpl. destruct (is_space c) eqn:E; [done|].
  apply rstrip_no_space. simpl. by rewrite E, Hr.
Qed.

Lemma digit_not_space c : is_digit c = true -> is_space c = false.
Proof.
  unfold is_digit, is_space. intros H.
  apply andb_prop in H as [H1 H2].
  apply Nat.leb_le in H1, H2.
  destruct (9 <=? code c)%nat eqn:A, (code c <=? 13)%nat eqn:B,
           (28 <=? code c)%nat eqn:C, (code c <=? 32)%nat eqn:D; simpl;
    try done;
    repeat match goal with
           | H : (_ <=? _)%nat = true |- _ => apply Nat.leb_le in H
           | H : (_ <=? _)%nat = false |- _ => apply Nat.leb_gt in H
           end; lia.
Qed.

Lemma digits_no_space s :
  forallb is_digit s = true ->
  forallb (fun c => negb (is_space c)) s = true.
Proof.
  induction s as [|c r IH]; simpl; [done|].
  intros [Hc Hr]%andb_prop.
  by rewrite (digit_not_space c Hc), (IH Hr).
Qed.

Lemma uint_digits d : forallb is_digit (NilEmpty.string_of_uint d) = true.
Proof. induction d; simpl; auto. Qed.

Lemma int_digits_uint d : forall acc prev,
  d <> Decimal.Nil \/ prev = true ->
  int_digits prev (Z.of_nat acc) (NilEmpty.string_of_uint d)
  = Some (Z.of_nat (Nat.of_uint_acc d acc)).
Proof.
  induction d; intros acc prev Hd;
    try (cbn [NilEmpty.string_of_uint int_digits Nat.of_uint_acc];
         match goal with
         | |- context [digit_val ?c] =>
             let v := eval vm_compute in (digit_val c) in
             change (digit_val c) with v
         end;
         cbv iota beta;
         rewrite <- (IHd _ true (or_intror eq_refl));
         f_equal; rewrite ?Nat.tail_mul_spec; lia).
  destruct Hd as [Hd| ->]; [done|]. reflexivity.
Qed.

Lemma to_uint_not_nil n : Nat.to_uint n <> Decimal.Nil.
Proof.
  intros E. pose proof (DecimalNat.Unsigned.of_to n) as H.
  rewrite E in H. cbn in H. subst n. discriminate E.
Qed.

Lemma digit_not_sign c :
  is_digit c = true -> Ascii.eqb c "+" = false /\ Ascii.eqb c "-" = false.
Proof.
  intros H. split; apply Ascii.eqb_neq; intros ->; discriminate H.
Qed.

Lemma int_decimal n :
  int (NilEmpty.string_of_uint (Nat.to_uint n)) = Some (Z.of_nat n).
Proof.
  pose proof (uint_digits (Nat.to_uint n)) as Hd.
  pose proof (to_uint_not_nil n) as Hn.
  pose proof (int_digits_uint (Nat.to_uint n) 0 false (or_introl Hn)) as Hi.
  change (Nat.of_uint_acc (Nat.to_uint n) 0) with (Nat.of_uint (Nat.to_uint n))
    in Hi.
  rewrite DecimalNat.Unsigned.of_to in Hi.
  unfold int. rewrite (strip_no_space _ (digits_no_space _ Hd)).
  destruct (NilEmpty.string_of_uint (Nat.to_uint n)) as [|c r] eqn:E.
  - discriminate Hi.
  - simpl in Hd. apply andb_prop in Hd as [Hc _].
    destruct (digit_not_sign c Hc) as [-> ->]. exact Hi.
Qed.

End Decimal.

Lemma version_key_vname k : version_key (vname k) = Ok (Z.of_nat k).
Proof.
  unfold version_key.
  change (PyStr.tail (vname k))
    with (NilEmpty.string_of_uint (Nat.to_uint k)).
  by rewrite int_decimal.
Qed.

Lemma vname_prefix k : PyStr.startswith "v" (vname k) = true.
Proof. reflexivity. Qed.

Lemma vname_inj a b : vname a = vname b -> a = b.
Proof.
  intros E. pose proof (version_key_vname a) as Ha.
  rewrite E, version_key_vname in Ha. injection Ha. lia.
Qed.

(** ** Keys, maximum and sorting *)

Lemma keyed_numbered names :
  Forall numbered names ->
  keyed names = Ok (map (fun n => (n, zkey n)) names).
Proof.
  induction 1 as [|n r Hn _ IH]; [done|].
  unfold numbered in Hn. cbn [keyed map]. unfold zkey.
  destruct (version_key n); [|done]. cbn. by rewrite IH.
Qed.

Lemma keyed_unnumbered names :
  Exists (fun n => ~ numbered n) names ->
  exists msg, keyed names = Raise (ValueError msg).
Proof.
  induction 1 as [n r Hn|n r _ [msg IH]]; cbn [keyed].
  - unfold numbered, version_key in *.
    destruct (PyStr.int (PyStr.tail n)); [by destruct Hn|]. eauto.
  - unfold version_key.
    destruct (PyStr.int (PyStr.tail n)); cbn; [|eauto].
    rewrite IH. eauto.
Qed.

Lemma max_from_spec l : forall best,
  (max_from best l = best \/ In (max_from best l) l)
  /\ best.2 <= (max_from best l).2
  /\ Forall (fun x => x.2 <= (max_from best l).2) l.
Proof.
  induction l as [|x r IH]; intros best; cbn [max_from].
  - split; [by left|]. split; [lia|constructor].
  - destruct (IH (if best.2 <? x.2 then x else best)) as (Hin & Hle & Hall).
    destruct (Z.ltb_spec best.2 x.2) as [Hlt|Hge].
    + split; [right; destruct Hin as [->|?]; [by left|by right]|].
      split; [lia|]. constructor; [lia|done].
    + split; [destruct Hin as [->|?]; [by left|right; by right]|].
      split; [lia|]. constructor; [lia|done].
Qed.

Lemma py_max_spec names :
  names <> [] -> Forall numbered names ->
  exists d, py_max names = Ok d /\ In d names
            /\ forall n, In n names -> zkey n <= zkey d.
Proof.
  intros Hne Hall. unfold py_max. rewrite (keyed_numbered _ Hall).
  destruct names as [|n r]; [done|]. cbn [bind map].
  set (f := fun n => (n, zkey n)).
  destruct (max_from_spec (map f r) (f n)) as (Hin & Hle & Hfa).
  set (m := max_from (f n) (map f r)) in *.
  assert (exists d, m = f d /\ In d (n :: r)) as (d & Hm & Hd).
  { destruct Hin as [->|Hin].
    - exists n. split; [reflexivity|]. left. reflexivity.
    - apply in_map_iff in Hin as (d & <- & Hd). exists d.
      split; [reflexivity|]. right. exact Hd. }
  exists d. change (max_from (n, zkey n) (map f r)) with m.
  rewrite Hm in Hle, Hfa |- *. cbn in Hle, Hfa |- *.
  split; [done|]. split; [done|].
  intros x [<-|Hx]; [done|].
  rewrite Forall_forall in Hfa. apply (Hfa (f x)).
  apply list_elem_of_In, in_map, Hx.
Qed.

Lemma insert_desc_perm x l : insert_desc x l ≡ₚ x :: l.
Proof.
  induction l as [|y r IH]; cbn [insert_desc]; [done|].
  destruct (y.2 <=? x.2); [done|]. rewrite IH. apply perm_swap.
Qed.

Lemma sort_desc_perm l : sort_desc l ≡ₚ l.
Proof.
  induction l as [|x r IH]; cbn; [done|].
  fold (sort_desc r). by rewrite insert_desc_perm, IH.
Qed.

Lemma insert_desc_sorted x l :
  StronglySorted desc l -> StronglySorted desc (insert_desc x l).
Proof.
  induction 1 as [|y r Hs IH Hy]; cbn [insert_desc].
  - repeat constructor.
  - destruct (Z.leb_spec y.2 x.2) as [Hle|Hgt].
    + constructor; [by constructor|].
      constructor; [done|].
      eapply Forall_impl; [exact Hy|]. unfold desc. intros; cbn in *; lia.
    + constructor; [done|].
      rewrite insert_desc_perm. constructor; [unfold desc; lia|done].
Qed.

Lemma sort_desc_sorted l : StronglySorted desc (sort_desc l).
Proof.
  induction l as [|x r IH]; cbn; [constructor|].
  by apply insert_desc_sorted.
Qed.

Lemma sorted_names l :
  StronglySorted desc l -> Forall (fun x => x.2 = zkey x.1) l ->
  StronglySorted name_desc (map fst l).
Proof.
  induction 1 as [|x r Hs IH Hx]; intros Hk; cbn; [constructor|].
  apply Forall_cons in Hk as [Hkx Hkr].
  constructor; [by apply IH|].
  rewrite Forall_forall in Hx, Hkr. apply Forall_forall.
  intros n Hn%list_elem_of_In. apply in_map_iff in Hn as (y & <- & Hy).
  apply list_elem_of_In in Hy.
  unfold name_desc, desc in *. rewrite <- Hkx, <- (Hkr _ Hy). by apply Hx.
Qed.

Lemma sorted_desc_spec names :
  Forall numbered names ->
  exists s, sorted_desc names = Ok s /\ s ≡ₚ names
            /\ StronglySorted name_desc s.
Proof.
  intros Hall. unfold sorted_desc. rewrite (keyed_numbered _ Hall).
  cbn [bind]. eexists. split; [done|].
  set (f := fun n => (n, zkey n)).
  split.
  - rewrite sort_desc_perm, map_map. cbn. by rewrite map_id.
  - apply sorted_names; [apply sort_desc_sorted|].
    rewrite sort_desc_perm. apply Forall_forall.
    intros x Hx%list_elem_of_In. by apply in_map_iff in Hx as (n & <- & _).
Qed.

Lemma find_sorted (P : string -> bool) s :
  StronglySorted name_desc s ->
  forall d, List.find P s = Some d ->
            forall x, In x s -> P x = true -> zkey x <= zkey d.
Proof.
  induction 1 as [|y r Hs IH Hy]; intros d Hf x Hx Hp; [done|].
  cbn in Hf. destruct (P y) eqn:Ey.
  - injection Hf as <-. destruct Hx as [<-|Hx]; [lia|].
    rewrite Forall_forall in Hy. apply Hy. by apply list_elem_of_In.
  - destruct Hx as [<-|Hx]; [congruence|]. by eapply IH.
Qed.

(** The search that the three renderers share: sort by key, highest first,
    and take the first directory with the artifact. *)
Lemma search_spec (P : string -> bool) names :
  Forall numbered names ->
  exists s, sorted_desc names = Ok s /\
    match List.find P s with
    | Some d => In d names /\ P d = true
                /\ forall x, In x names -> P x = true -> zkey x <= zkey d
    | None => Forall (fun x => P x = false) names
    end.
Proof.
  intros Hall. destruct (sorted_desc_spec _ Hall) as (s & Hs & Hp & Hsort).
  exists s. split; [done|].
  destruct (List.find P s) as [d|] eqn:Hf.
  - destruct (find_some _ _ Hf) as [Hd Hpd].
    split; [apply list_elem_of_In; rewrite <- Hp; by apply list_elem_of_In|].
    split; [done|]. intros x Hx. apply (find_sorted P s Hsort d Hf).
    apply list_elem_of_In. rewrite Hp. by apply list_elem_of_In.
  - apply Forall_forall. intros x Hx. apply (find_none _ _ Hf).
    apply list_elem_of_In. by rewrite Hp.
Qed.

(** ** The dispatcher *)

Lemma not_found_bind {A B : Type} (r : result A) (k : A -> result B) :
  is_not_found r = true -> is_not_found (bind r k) = true.
Proof. by destruct r as [|[]]. Qed.

(** C3. Strategy selection is a fixed priority order over the resolved
    version directory: a template artifact sends the call to template
    rendering whatever else is present; otherwise an instruction-function or
    composables artifact sends it to composition; otherwise a static document
    sends it to the static loader; otherwise the call fails with a not-found
    error that names the resolved directory. *)
Theorem strategy_priority (w : World) (p : string) (v : option string)
    (ctx : gmap string pyobj) (base : string) :
  base_path w p v = Ok base ->
  (exists_ w (base </> "instruction.j2") = true ->
   render_instruction w p v ctx = render_template_instruction w p v ctx)
  /\ (exists_ w (base </> "instruction.j2") = false ->
      exists_ w (base </> "instruction.py") = true
      \/ exists_ w (base </> "composables.py") = true ->
      render_instruction w p v ctx = compose_python_instruction w p v ctx)
  /\ (exists_ w (base </> "instruction.j2") = false ->
      exists_ w (base </> "instruction.py") = false ->
      exists_ w (base </> "composables.py") = false ->
      exists_ w (base </> "instruction.md") = true ->
      render_instruction w p v ctx = compose_markdown_instruction w p v ctx)
  /\ (exists_ w (base </> "instruction.j2") = false ->
      exists_ w (base </> "instruction.py") = false ->
      exists_ w (base </> "composables.py") = false ->
      exists_ w (base </> "instruction.md") = false ->
      render_instruction w p v ctx
      = Raise (FileNotFoundError ("No valid instruction found in: " +:+ base))).
Proof.
  intros Hb. unfold render_instruction. rewrite Hb. cbn [bind].
  repeat split.
  - by intros ->.
  - intros -> [-> | ->]; [done|]. by rewrite orb_true_r.
  - by intros -> -> -> ->.
  - by intros -> -> -> ->.
Qed.

Lemma strategy_priority_witness :
  render_instruction Fixture.mixed "mix" None ∅
  = render_template_instruction Fixture.mixed "mix" None ∅
  /\ render_instruction Fixture.composed_and_static "mix" None ∅
     = compose_python_instruction Fixture.composed_and_static "mix" None ∅.
Proof.
  split.
  - refine (proj1 (strategy_priority Fixture.mixed "mix" None ∅
                     "/srv/mix/v1" _) _); vm_compute; reflexivity.
  - refine (proj1 (proj2 (strategy_priority Fixture.composed_and_static "mix"
                            None ∅ "/srv/mix/v1" _)) _ _);
      [vm_compute; reflexivity | vm_compute; reflexivity
       | right; vm_compute; reflexivity].
Defined.

Example template_wins :
  render_instruction Fixture.mixed "mix" None ∅ = Ok "from the template".
Proof. vm_compute. reflexivity. Qed.

Example composition_before_static :
  render_instruction Fixture.composed_and_static "mix" None ∅
  = Ok "composed for nobody".
Proof. vm_compute. reflexivity. Qed.

(** ** The numerically latest version *)

Lemma numbered_vname k : numbered (vname k).
Proof. unfold numbered. by rewrite version_key_vname. Qed.

Lemma zkey_vname k : zkey (vname k) = Z.of_nat k.
Proof. unfold zkey. by rewrite version_key_vname. Qed.

Lemma py_max_canonical (N : nat) (vds : list string) :
  (1 <= N)%nat -> vds ≡ₚ map vname (seq 1 N) -> py_max vds = Ok (vname N).
Proof.
  intros HN Hp.
  assert (Hall : Forall numbered vds).
  { rewrite Hp. apply Forall_forall. intros n Hn%list_elem_of_In.
    apply in_map_iff in Hn as (k & <- & _). apply numbered_vname. }
  assert (Hne : vds <> []).
  { intros ->. apply Permutation_nil_l in Hp.
    destruct N; [lia|]. discriminate Hp. }
  destruct (py_max_spec vds Hne Hall) as (d & Hd & Hin & Hmax).
  rewrite Hd. f_equal.
  assert (HinN : In (vname N) vds).
  { apply list_elem_of_In. rewrite Hp. apply list_elem_of_In, in_map, in_seq. lia. }
  apply list_elem_of_In in Hin. rewrite Hp in Hin.
  apply list_elem_of_In, in_map_iff in Hin as (k & <- & Hk%in_seq).
  specialize (Hmax _ HinN). rewrite !zkey_vname in Hmax.
  f_equal. lia.
Qed.

(** C7. When the version directories of an instruction path are [v1] to
    [vN], in whatever order the listing enumerates them, [render_instruction]
    without a version takes [vN] as its base directory; when the path is
    absent or has no version directory the call fails with a not-found
    error. *)
Theorem latest_version_is_numeric_max (w : World) (p : string)
    (ctx : gmap string pyobj) :
  (forall (N : nat) (vds : list string),
      (1 <= N)%nat ->
      exists_ w (INSTRUCTIONS_DIR w </> p) = true ->
      version_dirs w (INSTRUCTIONS_DIR w </> p) = Ok vds ->
      vds ≡ₚ map vname (seq 1 N) ->
      base_path w p None = Ok (INSTRUCTIONS_DIR w </> p </> vname N))
  /\ (exists_ w (INSTRUCTIONS_DIR w </> p) = false
      \/ version_dirs w (INSTRUCTIONS_DIR w </> p) = Ok [] ->
      is_not_found (render_instruction w p None ctx) = true).
Proof.
  split.
  - intros N vds HN He Hv Hp. unfold base_path. cbn [given].
    rewrite He, Hv. cbn [bind].
    destruct vds as [|n r] eqn:E.
    { apply Permutation_nil_l in Hp. destruct N; [lia|]. discriminate Hp. }
    rewrite <- E in *. by rewrite (py_max_canonical N vds HN Hp).
  - intros H. unfold render_instruction. apply not_found_bind.
    unfold base_path. cbn [given].
    destruct (exists_ w (INSTRUCTIONS_DIR w </> p)) eqn:He; [|done].
    destruct H as [H|H]; [done|]. by rewrite H.
Qed.

Lemma latest_version_is_numeric_max_witness :
  base_path Fixture.ten_versions "many" None = Ok "/srv/many/v10".
Proof.
  refine (proj1 (latest_version_is_numeric_max Fixture.ten_versions "many" ∅)
            10%nat
            ["v9"; "v10"; "v2"; "v1"; "v7"; "v3"; "v5"; "v4"; "v8"; "v6"]
            _ _ _ _).
  - lia.
  - vm_compute; reflexivity.
  - vm_compute; reflexivity.
  - refine (bool_decide_unpack _ _). vm_compute. exact I.
Defined.

Example ten_versions_render :
  render_instruction Fixture.ten_versions "many" None ∅ = Ok "tenth".
Proof. vm_compute. reflexivity. Qed.

Lemma base_path_unnumbered (w : World) (p : string) (vds : list string) :
  exists_ w (INSTRUCTIONS_DIR w </> p) = true ->
  version_dirs w (INSTRUCTIONS_DIR w </> p) = Ok vds ->
  Exists (fun n => ~ numbered n) vds ->
  exists msg, base_path w p None = Raise (ValueError msg).
Proof.
  intros He Hv Hx. unfold base_path. cbn [given]. rewrite He, Hv. cbn [bind].
  destruct (keyed_unnumbered _ Hx) as [msg Hk].
  destruct vds as [|n r] eqn:E; [by apply Exists_nil in Hx|].
  exists msg. unfold py_max. by rewrite Hk.
Qed.

(** C8, where the code departs from the claim.  The version directories are
    the child directories whose name starts with [v]; the suffix is not
    checked before [int] is applied to it.  With a child directory [venv]
    next to [v1], that child is not ignored: resolution without a version
    raises [ValueError], in the dispatcher and in the value loader alike. *)
Theorem venv_breaks_version_selection :
  version_dirs Fixture.with_venv "/srv/greet" = Ok ["v1"; "venv"]
  /\ render_instruction Fixture.with_venv "greet" None ∅
     = Raise (ValueError "invalid literal for int() with base 10: 'env'")
  /\ _load_instruction_variables Fixture.with_venv "greet" None
     = Raise (ValueError "invalid literal for int() with base 10: 'env'")
  /\ render_instruction Fixture.with_venv "greet" (Some "v1") ∅ = Ok "Hello".
Proof. repeat split; vm_compute; reflexivity. Qed.

(** ** The template renderer *)



Example older_template_is_used :
  template_path Fixture.older_template "old" None = Ok "old/v1/instruction.j2"
  /\ base_path Fixture.older_template "old" None = Ok "/srv/old/v3"
  /\ render_template_instruction Fixture.older_template "old" None ∅
     = Ok "first draft".
Proof. repeat split; vm_compute; reflexivity. Qed.

(** *** Undefined variables *)



(** A name that only the environment binds is rendered from there. *)
Lemma global_names_resolve (ctx : gmap string pyobj) (x : string) (o : pyobj) :
  ctx !! x = None -> globals env !! x = Some o ->
  output env x ctx = Ok (py_str o).
Proof. intros Hc Hg. unfold output, resolve. by rewrite Hc, Hg. Qed.




Example missing_variable_raises :
  render_template_instruction Fixture.two_variables "ask" None ∅
  = Raise (UndefinedError "'WHO' is undefined").
Proof. vm_compute. reflexivity. Qed.

(** The policy matters: the default policy of the templating service would
    render the same template with an empty substitution. *)
Example lenient_policy_substitutes_nothing :
  jinja_render {| undefined := Undefined; autoescape := false;
                  globals := default_globals |}
    [Var "X"; Lit " asks "; Var "WHO"] {[ "X" := PStr "a" ]}
  = Ok "a asks ".
Proof. vm_compute. reflexivity. Qed.

(** *** The merged context *)

Lemma merge_caller_wins (vars ctx : gmap string pyobj) (k : string) (x : pyobj) :
  ctx !! k = Some x -> merge_context vars ctx !! k = Some x.
Proof. intros H. unfold merge_context. by apply lookup_union_Some_l. Qed.

Lemma merge_local_only (vars ctx : gmap string pyobj) (k : string) :
  ctx !! k = None -> merge_context vars ctx !! k = vars !! k.
Proof. intros H. unfold merge_context. by apply lookup_union_r. Qed.

Lemma merge_forgets_local (vars ctx : gmap string pyobj) (k : string)
    (x : pyobj) (o : option pyobj) :
  ctx !! k = Some x ->
  merge_context (partial_alter (fun _ => o) k vars) ctx = merge_context vars ctx.
Proof.
  intros H. apply map_eq. intros i. unfold merge_context.
  rewrite !lookup_union. destruct (decide (i = k)) as [->|Hne].
  - rewrite H, lookup_partial_alter_eq. by destruct o, (vars !! k).
  - by rewrite lookup_partial_alter_ne.
Qed.

(** C5. Merging is right-biased and replaces whole keys: a name that the
    caller supplies is bound to the caller's value in the merged context, the
    template outputs that value, and the result of the render is the same
    whatever value, if any, the instruction itself gives to that name. *)
Theorem caller_overrides_local (w : World) (p : string) (v : option string)
    (ctx : gmap string pyobj) (k : string) (x : pyobj) :
  ctx !! k = Some x ->
  (forall vars, merge_context vars ctx !! k = Some x)
  /\ (forall vars, output env k (merge_context vars ctx) = Ok (py_str x))
  /\ (forall vars o,
        merge_context (partial_alter (fun _ => o) k vars) ctx
        = merge_context vars ctx)
  /\ (forall tp t vars,
        p <> "" ->
        template_path w p v = Ok tp ->
        get_template w tp = Ok t ->
        _load_instruction_variables w p v = Ok vars ->
        render_template_instruction w p v ctx
        = do out <- jinja_render env t (merge_context (delete k vars) ctx);
          Ok (PyStr.strip out)).
Proof.
  intros Hk. split; [|split; [|split]].
  - intros vars. by apply merge_caller_wins.
  - intros vars. unfold output, resolve.
    by rewrite (merge_caller_wins vars ctx k x Hk).
  - intros vars o. by eapply merge_forgets_local.
  - intros tp t vars Hp Htp Ht Hv. unfold render_template_instruction.
    apply String.eqb_neq in Hp. rewrite Hp. step Htp. step Ht. step Hv.
    unfold delete, map_delete. by erewrite merge_forgets_local.
Qed.

Lemma caller_overrides_local_witness :
  merge_context {[ "X" := PStr "a" ]}
    {[ "X" := PStr "b"; "WHO" := PStr "you" ]} !! "X" = Some (PStr "b")
  /\ render_template_instruction Fixture.two_variables "ask" None
       {[ "X" := PStr "b"; "WHO" := PStr "you" ]}
     = do out <- jinja_render env [Var "X"; Lit " asks "; Var "WHO"]
                   (merge_context (delete "X" {[ "X" := PStr "a" ]})
                      {[ "X" := PStr "b"; "WHO" := PStr "you" ]});
       Ok (PyStr.strip out).
Proof.
  pose proof (caller_overrides_local Fixture.two_variables "ask" None
                {[ "X" := PStr "b"; "WHO" := PStr "you" ]} "X" (PStr "b")
                eq_refl) as (H1 & _ & _ & H4).
  split; [apply H1|].
  apply (H4 "ask/v1/instruction.j2"); [done| | |]; vm_compute; reflexivity.
Defined.

Example override_is_rendered :
  render_template_instruction Fixture.two_variables "ask" None
    {[ "WHO" := PStr "you" ]} = Ok "a asks you"
  /\ render_template_instruction Fixture.two_variables "ask" None
       {[ "X" := PStr "b"; "WHO" := PStr "you" ]} = Ok "b asks you".
Proof. split; vm_compute; reflexivity. Qed.

(** ** The value loader *)

Lemma load_file_variables (w : World) (name file : string) :
  load_file w load_variables_imports name file = exec_module w name file.
Proof. reflexivity. Qed.

Lemma load_file_composables (w : World) (name file : string) :
  load_file w load_composables_imports name file = exec_module w name file.
Proof. reflexivity. Qed.


Lemma lookup_public_callables (ns : gmap string pyobj) (name : string) :
  filter (fun kv : string * pyobj => public_callable kv.1 kv.2 = true) ns !! name
  = match ns !! name with
    | Some o => if public_callable name o then Some o else None
    | None => None
    end.
Proof.
  rewrite map_lookup_filter. destruct (ns !! name) as [o|]; cbn; [|done].
  destruct (public_callable name o); by case_guard.
Qed.




Example legacy_values_loaded :
  _load_instruction_variables Fixture.broken_values "legacy" None
  = Ok {[ "TONE" := PStr "formal"; "MAX_ITEMS" := PObj "3" true ]}.
Proof. vm_compute. reflexivity. Qed.

(** C10. An instruction directory that exists and has no version directory
    is itself probed: without a version the value loader looks for
    [values.py], else [variables.py], in the instruction directory and loads
    what it finds, and the composables loader looks for [composables.py]
    there. *)
Theorem unversioned_directory_is_probed (w : World) (p : string) :
  exists_ w (INSTRUCTIONS_DIR w </> p) = true ->
  version_dirs w (INSTRUCTIONS_DIR w </> p) = Ok [] ->
  values_path w p None
  = Ok (if exists_ w (INSTRUCTIONS_DIR w </> p </> "values.py")
        then Some (INSTRUCTIONS_DIR w </> p </> "values.py")
        else if exists_ w (INSTRUCTIONS_DIR w </> p </> "variables.py")
             then Some (INSTRUCTIONS_DIR w </> p </> "variables.py")
             else None)
  /\ composables_path w p None
     = Ok (Some (INSTRUCTIONS_DIR w </> p </> "composables.py"))
  /\ (forall ns,
        exists_ w (INSTRUCTIONS_DIR w </> p </> "values.py") = true ->
        exec_module w (module_name p "_variables")
          (INSTRUCTIONS_DIR w </> p </> "values.py") = Ok ns ->
        _load_instruction_variables w p None
        = Ok (filter (fun kv => public_constant kv.1 = true) ns))
  /\ (forall ns,
        exists_ w (INSTRUCTIONS_DIR w </> p </> "values.py") = false ->
        exists_ w (INSTRUCTIONS_DIR w </> p </> "variables.py") = true ->
        exec_module w (module_name p "_variables")
          (INSTRUCTIONS_DIR w </> p </> "variables.py") = Ok ns ->
        _load_instruction_variables w p None
        = Ok (filter (fun kv => public_constant kv.1 = true) ns))
  /\ (forall ns,
        exists_ w (INSTRUCTIONS_DIR w </> p </> "composables.py") = true ->
        exec_module w (module_name p "_composables")
          (INSTRUCTIONS_DIR w </> p </> "composables.py") = Ok ns ->
        _load_instruction_composables w p None
        = Ok (filter (fun kv => public_callable kv.1 kv.2 = true) ns)).
Proof.
  intros He Hv.
  assert (Hvp : values_path w p None
    = Ok (if exists_ w (INSTRUCTIONS_DIR w </> p </> "values.py")
          then Some (INSTRUCTIONS_DIR w </> p </> "values.py")
          else if exists_ w (INSTRUCTIONS_DIR w </> p </> "variables.py")
               then Some (INSTRUCTIONS_DIR w </> p </> "variables.py")
               else None)).
  { unfold values_path. cbn [given]. rewrite He. cbn [negb]. step Hv.
    by repeat destruct (exists_ w _). }
  assert (Hcp : composables_path w p None
    = Ok (Some (INSTRUCTIONS_DIR w </> p </> "composables.py"))).
  { unfold composables_path. cbn [given]. rewrite He. by step Hv. }
  split; [done|]. split; [done|]. split; [|split].
  - intros ns H1 Hn. unfold _load_instruction_variables. step Hvp.
    rewrite H1. by rewrite load_file_variables, Hn.
  - intros ns H1 H2 Hn. unfold _load_instruction_variables. step Hvp.
    rewrite H1, H2. by rewrite load_file_variables, Hn.
  - intros ns H1 Hn. unfold _load_instruction_composables. step Hcp.
    rewrite H1. cbn [negb]. by rewrite load_file_composables, Hn.
Qed.

Lemma unversioned_directory_is_probed_witness :
  values_path Fixture.unversioned "flat" None = Ok (Some "/srv/flat/values.py")
  /\ composables_path Fixture.unversioned "flat" None
     = Ok (Some "/srv/flat/composables.py").
Proof.
  pose proof (unversioned_directory_is_probed Fixture.unversioned "flat"
                eq_refl eq_refl) as (H1 & H2 & _).
  split; [exact H1 | exact H2].
Defined.

Example unversioned_loaded :
  _load_instruction_variables Fixture.unversioned "flat" None
  = Ok {[ "TONE" := PStr "formal" ]}
  /\ _load_instruction_composables Fixture.unversioned "flat" None
     = Ok {[ "helper" := PFunc 1 ]}.
Proof. split; vm_compute; reflexivity. Qed.

(** ** The composition renderer *)

Lemma compose_python_unfold (w : World) (p : string) (v : option string)
    (ctx cs : gmap string pyobj) :
  p <> "" ->
  _load_instruction_composables w p v = Ok cs ->
  compose_python_instruction w p v ctx
  = if decide (cs = ∅) then
      Raise (FileNotFoundError ("No composables found for instruction: " +:+ p))
    else
      match main_composer cs with
      | Some f => do r <- py_call w f ctx; strip_method r
      | None => instruction_py_fallback w p v ctx
      end.
Proof.
  intros Hp Hc. unfold compose_python_instruction.
  apply String.eqb_neq in Hp. rewrite Hp. by step Hc.
Qed.

(** C1, as the code has it.  An empty mapping of composables ends
    [compose_python_instruction] at once with the not-found error "No
    composables found", and [instruction.py] is not consulted.  The fallback
    to [instruction.py] is what a non-empty mapping without a usable
    [compose_instruction] or [build_instruction] leads to; there the call
    fails with the error of the search for [instruction.py] when that search
    fails, and with a not-found error when a version is given and its
    directory holds no [instruction.py]. *)
Theorem empty_composables_is_terminal (w : World) (p : string)
    (v : option string) (ctx : gmap string pyobj) :
  p <> "" ->
  (_load_instruction_composables w p v = Ok ∅ ->
   compose_python_instruction w p v ctx
   = Raise (FileNotFoundError ("No composables found for instruction: " +:+ p)))
  /\ (forall cs,
        _load_instruction_composables w p v = Ok cs ->
        cs <> ∅ -> main_composer cs = None ->
        compose_python_instruction w p v ctx = instruction_py_fallback w p v ctx)
  /\ (forall cs e,
        _load_instruction_composables w p v = Ok cs ->
        cs <> ∅ -> main_composer cs = None ->
        instruction_py_path w p v = Raise e ->
        compose_python_instruction w p v ctx = Raise e)
  /\ (forall ver,
        given v = Some ver ->
        exists_ w (INSTRUCTIONS_DIR w </> p </> ver </> "instruction.py") = false ->
        instruction_py_path w p v
        = Raise (FileNotFoundError
                   ("Instruction file not found: "
                    +:+ (INSTRUCTIONS_DIR w </> p </> ver </> "instruction.py")))).
Proof.
  intros Hp. split; [|split; [|split]].
  - intros Hc. rewrite (compose_python_unfold w p v ctx ∅ Hp Hc).
    by destruct (decide (∅ = ∅)).
  - intros cs Hc Hne Hm. rewrite (compose_python_unfold w p v ctx cs Hp Hc).
    destruct (decide (cs = ∅)); [done|]. by rewrite Hm.
  - intros cs e Hc Hne Hm He.
    rewrite (compose_python_unfold w p v ctx cs Hp Hc).
    destruct (decide (cs = ∅)); [done|]. rewrite Hm.
    unfold instruction_py_fallback, instruction_py_fallback_in. by rewrite He.
  - intros ver Hg Hx. unfold instruction_py_path. rewrite Hg. cbn [bind].
    by rewrite Hx.
Qed.

Lemma empty_composables_is_terminal_witness :
  compose_python_instruction Fixture.function_only "solo" None ∅
  = Raise (FileNotFoundError "No composables found for instruction: solo")
  /\ compose_python_instruction Fixture.helper_only "fb" (Some "v1") ∅
     = Raise (FileNotFoundError
                "Instruction file not found: /srv/fb/v1/instruction.py").
Proof.
  split.
  - refine (proj1 (empty_composables_is_terminal Fixture.function_only "solo"
                     None ∅ _) _); [done | vm_compute; reflexivity].
  - refine (proj1 (proj2 (proj2
              (empty_composables_is_terminal Fixture.helper_only "fb"
                 (Some "v1") ∅ _)))
              {[ "helper" := PFunc 1 ]} _ _ _ _ _);
      [done | vm_compute; reflexivity
       | intros E; apply (f_equal (lookup "helper")) in E; discriminate E
       | vm_compute; reflexivity | vm_compute; reflexivity].
Defined.

(** C1 as stated fails: with [instruction.py] in place and its precomputed
    constant exposed, an empty mapping of composables still ends the call
    with a not-found error, and the fallback is not what the call computes. *)
Lemma empty_composables_no_fallback :
  _load_instruction_composables Fixture.function_only "solo" None = Ok ∅
  /\ instruction_py_path Fixture.function_only "solo" None
     = Ok "/srv/solo/v1/instruction.py"
  /\ (exists m,
        exec_module Fixture.function_only "solo_instruction"
          "/srv/solo/v1/instruction.py" = Ok m
        /\ m !! "INSTRUCTION" = Some (PStr " Be brief. "))
  /\ compose_python_instruction Fixture.function_only "solo" None ∅
     = Raise (FileNotFoundError "No composables found for instruction: solo")
  /\ compose_python_instruction Fixture.function_only "solo" None ∅
     <> instruction_py_fallback Fixture.function_only "solo" None ∅
  /\ render_instruction Fixture.function_only "solo" None ∅
     = Raise (FileNotFoundError "No composables found for instruction: solo").
Proof.
  split; [vm_compute; reflexivity|]. split; [vm_compute; reflexivity|].
  split; [eexists; split; vm_compute; reflexivity|].
  split; [vm_compute; reflexivity|].
  split; [vm_compute; discriminate|]. vm_compute; reflexivity.
Qed.

(** *** The load of [instruction.py] *)

Lemma importlib_unbound_in_compose :
  name_bound compose_python_imports "importlib" = false.
Proof. reflexivity. Qed.

(** Whatever [instruction.py] holds, the fallback stops at the unbound name. *)
Lemma fallback_name_error (w : World) (p : string) (v : option string)
    (ctx : gmap string pyobj) (path : string) :
  instruction_py_path w p v = Ok path ->
  instruction_py_fallback w p v ctx
  = Raise (NameError "name 'importlib' is not defined").
Proof.
  intros H. unfold instruction_py_fallback, instruction_py_fallback_in.
  by step H.
Qed.

(** With [importlib] imported the fallback does what lines 318-323 say. *)
Lemma fallback_with_import (w : World) (imports : list string) (p : string)
    (v : option string) (ctx m : gmap string pyobj) (path : string) :
  name_bound imports "importlib" = true ->
  instruction_py_path w p v = Ok path ->
  exec_module w (module_name p "_instruction") path = Ok m ->
  (forall c, m !! "INSTRUCTION" = Some c ->
             instruction_py_fallback_in w imports p v ctx
             = Ok (PyStr.strip (py_str c)))
  /\ (forall f, m !! "INSTRUCTION" = None ->
                m !! "compose_instruction" = Some f ->
                instruction_py_fallback_in w imports p v ctx
                = do r <- py_call w f ctx; strip_method r).
Proof.
  intros Hb Hp Hm. unfold instruction_py_fallback_in, load_file.
  step Hp. rewrite Hb. step Hm. split.
  - by intros c ->.
  - by intros f -> ->.
Qed.

(** C2, where the code departs from the claim.  The fallback locates
    [instruction.py], but the function body then names [importlib], which
    neither the module nor the function imports: the load raises [NameError]
    and neither the constant nor the composing function is ever reached.
    Both fixtures have a non-empty mapping of composables without a main
    composer, so that the fallback is entered. *)
Theorem fallback_never_returns :
  (instruction_py_path Fixture.helper_and_constant "fb" None
   = Ok "/srv/fb/v1/instruction.py"
   /\ exists m,
        exec_module Fixture.helper_and_constant "fb_instruction"
          "/srv/fb/v1/instruction.py" = Ok m
        /\ m !! "INSTRUCTION" = Some (PStr " Be brief. "))
  /\ compose_python_instruction Fixture.helper_and_constant "fb" None ∅
     = Raise (NameError "name 'importlib' is not defined")
  /\ compose_python_instruction Fixture.helper_and_constant "fb" (Some "v1") ∅
     = Raise (NameError "name 'importlib' is not defined")
  /\ compose_python_instruction Fixture.helper_and_composer "fb" None
       {[ "name" := PStr "Ann" ]}
     = Raise (NameError "name 'importlib' is not defined")
  /\ instruction_py_fallback_in Fixture.helper_and_constant ["importlib"]
       "fb" None ∅ = Ok "Be brief."
  /\ instruction_py_fallback_in Fixture.helper_and_composer ["importlib"]
       "fb" None {[ "name" := PStr "Ann" ]} = Ok "composed for Ann".
Proof.
  split; [split; [vm_compute; reflexivity
                 | eexists; split; vm_compute; reflexivity]|].
  repeat split; vm_compute; reflexivity.
Qed.

(** * Further properties of the renderer *)

(** ** Trimmed results *)

Lemma rstrip_cons_no_space c r :
  PyStr.is_space c = false ->
  PyStr.rstrip (String c r) = String c (PyStr.rstrip r).
Proof. intros H. cbn [PyStr.rstrip]. rewrite H. by destruct (PyStr.rstrip r). Qed.

Lemma rstrip_idempotent s : PyStr.rstrip (PyStr.rstrip s) = PyStr.rstrip s.
Proof.
  induction s as [|c r IH]; [done|]. cbn [PyStr.rstrip].
  destruct (PyStr.rstrip r) as [|d r'] eqn:E.
  - destruct (PyStr.is_space c) eqn:Hc; [done|].
    cbn [PyStr.rstrip]. by rewrite Hc.
  - change (PyStr.rstrip (String c (String d r')))
      with (match PyStr.rstrip (String d r') with
            | EmptyString =>
                if PyStr.is_space c then EmptyString else String c EmptyString
            | String a b => String c (String a b)
            end).
    by rewrite IH.
Qed.

Lemma lstrip_head s :
  PyStr.lstrip s = EmptyString
  \/ exists c r, PyStr.lstrip s = String c r /\ PyStr.is_space c = false.
Proof.
  induction s as [|c r IH]; [by left|]. cbn [PyStr.lstrip].
  destruct (PyStr.is_space c) eqn:Hc; [done|]. right. by exists c, r.
Qed.

Lemma strip_idempotent s : PyStr.strip (PyStr.strip s) = PyStr.strip s.
Proof.
  unfold PyStr.strip at 2 3.
  destruct (lstrip_head s) as [->|(c & r & -> & Hc)]; [done|].
  rewrite (rstrip_cons_no_space c r Hc). unfold PyStr.strip.
  cbn [PyStr.lstrip]. rewrite Hc.
  by rewrite (rstrip_cons_no_space c _ Hc), rstrip_idempotent.
Qed.

Lemma strip_method_trimmed (o : pyobj) (out : string) :
  strip_method o = Ok out -> PyStr.strip out = out.
Proof.
  destruct o; cbn; try done. intros [= <-]. apply strip_idempotent.
Qed.

Lemma template_trimmed (w : World) p v ctx out :
  render_template_instruction w p v ctx = Ok out -> PyStr.strip out = out.
Proof.
  unfold render_template_instruction.
  destruct (String.eqb p ""); [done|].
  destruct (template_path w p v); [|done]. cbn [bind].
  destruct (get_template w _); [|done]. cbn [bind].
  destruct (_load_instruction_variables w p v); [|done]. cbn [bind].
  destruct (jinja_render _ _ _); [|done]. cbn [bind].
  intros [= <-]. apply strip_idempotent.
Qed.

Lemma markdown_trimmed (w : World) p v ctx out :
  compose_markdown_instruction w p v ctx = Ok out -> PyStr.strip out = out.
Proof.
  unfold compose_markdown_instruction.
  destruct (String.eqb p ""); [done|].
  destruct (instruction_md_path w p v); [|done]. cbn [bind].
  destruct (negb _); [done|].
  destruct (read_text w _); [|done]. cbn [bind].
  intros [= <-]. apply strip_idempotent.
Qed.

Lemma python_trimmed (w : World) p v ctx out :
  compose_python_instruction w p v ctx = Ok out -> PyStr.strip out = out.
Proof.
  unfold compose_python_instruction.
  destruct (String.eqb p ""); [done|].
  destruct (_load_instruction_composables w p v) as [cs|]; [|done]. cbn [bind].
  destruct (decide (cs = ∅)); [done|].
  destruct (main_composer cs) as [f|].
  - destruct (py_call w f ctx) as [r|]; [|done]. cbn [bind].
    apply strip_method_trimmed.
  - unfold instruction_py_fallback, instruction_py_fallback_in.
    destruct (instruction_py_path w p v); [|done]. cbn [bind].
    destruct (load_file w _ _ _) as [m|]; [|done]. cbn [bind].
    destruct (m !! "INSTRUCTION"); [intros [= <-]; apply strip_idempotent|].
    destruct (m !! "compose_instruction") as [f|]; [|done].
    destruct (py_call w f ctx) as [r|]; [|done]. cbn [bind].
    apply strip_method_trimmed.
Qed.

(** X1. Whatever an entry point returns is trimmed text: stripping the
    result of [render_instruction], [render_template_instruction],
    [compose_python_instruction] or [compose_markdown_instruction] once more
    changes nothing. *)
Theorem results_are_trimmed (w : World) (p : string) (v : option string)
    (ctx : gmap string pyobj) (out : string) :
  render_instruction w p v ctx = Ok out
  \/ render_template_instruction w p v ctx = Ok out
  \/ compose_python_instruction w p v ctx = Ok out
  \/ compose_markdown_instruction w p v ctx = Ok out ->
  PyStr.strip out = out.
Proof.
  intros [H|[H|[H|H]]];
    [|by eapply template_trimmed|by eapply python_trimmed
     |by eapply markdown_trimmed].
  unfold render_instruction in H.
  destruct (base_path w p v) as [base|]; [|done]. cbn [bind] in H.
  destruct (exists_ w (base </> "instruction.j2")); [by eapply template_trimmed|].
  destruct (_ || _); [by eapply python_trimmed|].
  destruct (exists_ w _); [by eapply markdown_trimmed|done].
Qed.

Lemma results_are_trimmed_witness :
  PyStr.strip "second" = "second".
Proof.
  apply (results_are_trimmed Trees.static_versions "doc" None ∅ "second").
  right; right; right. vm_compute. reflexivity.
Defined.

(** ** Empty arguments *)

(** X2. With the empty string as instruction path the three renderers raise
    [ValueError] whatever the file system holds, and [render_instruction],
    which does not check the path itself, never returns a text. *)
Theorem empty_path_never_renders (w : World) (v : option string)
    (ctx : gmap string pyobj) :
  is_value_error (render_template_instruction w "" v ctx) = true
  /\ is_value_error (compose_python_instruction w "" v ctx) = true
  /\ is_value_error (compose_markdown_instruction w "" v ctx) = true
  /\ is_ok (render_instruction w "" v ctx) = false.
Proof.
  repeat split; try reflexivity.
  unfold render_instruction.
  destruct (base_path w "" v) as [base|]; [|done]. cbn [bind].
  by repeat destruct (exists_ w _).
Qed.

(** X3. The empty string as version counts as no version at all: every
    entry point and both loaders then resolve the latest version. *)
Theorem empty_version_is_omitted (w : World) (p : string)
    (ctx : gmap string pyobj) :
  render_instruction w p (Some "") ctx = render_instruction w p None ctx
  /\ render_template_instruction w p (Some "") ctx
     = render_template_instruction w p None ctx
  /\ compose_python_instruction w p (Some "") ctx
     = compose_python_instruction w p None ctx
  /\ compose_markdown_instruction w p (Some "") ctx
     = compose_markdown_instruction w p None ctx
  /\ _load_instruction_variables w p (Some "") = _load_instruction_variables w p None
  /\ _load_instruction_composables w p (Some "")
     = _load_instruction_composables w p None.
Proof. repeat split. Qed.

Lemma given_nonempty (ver : string) : ver <> "" -> given (Some ver) = Some ver.
Proof. by destruct ver. Qed.

(** ** The composables *)

Lemma composables_entry (w : World) (p : string)
    (v : option string) (cs : gmap string pyobj) (name : string) (o : pyobj) :
  _load_instruction_composables w p v = Ok cs ->
  cs !! name = Some o ->
  callable o = true /\ PyStr.startswith "_" name = false.
Proof.
  unfold _load_instruction_composables.
  destruct (composables_path w p v) as [[path|]|]; cbn [bind]; [| |done].
  - destruct (negb _); [by intros [= <-]|].
    destruct (load_file w _ _ _) as [m|e];
      [|destruct (is_exception e); [by intros [= <-]|done]].
    intros [= <-] Hl. rewrite lookup_public_callables in Hl.
    destruct (m !! name) as [o'|]; [|done].
    destruct (public_callable name o') eqn:E; [|done].
    injection Hl as <-. unfold public_callable in E.
    apply andb_prop in E as [E1 E2]. split; [done|].
    by apply negb_true_iff.
  - by intros [= <-].
Qed.

(** X5. Every entry of the mapping that [_load_instruction_composables]
    returns is callable and its name does not start with an underscore. *)
Theorem composables_are_public_callables (w : World) (p : string)
    (v : option string) (cs : gmap string pyobj) (name : string) (o : pyobj) :
  _load_instruction_composables w p v = Ok cs ->
  cs !! name = Some o ->
  callable o = true /\ PyStr.startswith "_" name = false.
Proof. intros Hc Hl. exact (composables_entry w p v cs name o Hc Hl). Qed.

Lemma composables_are_public_callables_witness :
  callable (PFunc 0) = true /\ PyStr.startswith "_" "compose_instruction" = false.
Proof.
  apply (composables_are_public_callables Trees.both_composers "both" None
           {[ "build_instruction" := PFunc 1; "compose_instruction" := PFunc 0 ]}
           "compose_instruction" (PFunc 0)); vm_compute; reflexivity.
Defined.



Example composer_returns_no_text :
  compose_python_instruction Trees.both_composers "number" None ∅
  = Raise (AttributeError "object has no attribute 'strip'").
Proof. vm_compute. reflexivity. Qed.



(** ** The static loader *)

(** X8. Without a version and with the instruction directory absent,
    [compose_markdown_instruction] raises [UnboundLocalError]: the path
    variable was never assigned.  [render_template_instruction] and
    [render_instruction] raise the not-found error in the same situation. *)
Theorem markdown_absent_directory (w : World) (p : string) (v : option string)
    (ctx : gmap string pyobj) :
  p <> "" -> given v = None ->
  exists_ w (INSTRUCTIONS_DIR w </> p) = false ->
  is_unbound_local (compose_markdown_instruction w p v ctx) = true
  /\ is_not_found (render_template_instruction w p v ctx) = true
  /\ is_not_found (render_instruction w p v ctx) = true.
Proof.
  intros Hp Hg He. apply String.eqb_neq in Hp. repeat split.
  - unfold compose_markdown_instruction, instruction_md_path.
    by rewrite Hp, Hg, He.
  - unfold render_template_instruction, template_path.
    by rewrite Hp, Hg, He.
  - unfold render_instruction, base_path. by rewrite Hg, He.
Qed.

Lemma markdown_absent_directory_witness :
  is_unbound_local
    (compose_markdown_instruction Fixture.static_only "nowhere" None ∅) = true
  /\ is_not_found
       (render_template_instruction Fixture.static_only "nowhere" None ∅) = true
  /\ is_not_found (render_instruction Fixture.static_only "nowhere" None ∅) = true.
Proof.
  apply markdown_absent_directory; [done | reflexivity | vm_compute; reflexivity].
Defined.

(** X9. Without a version, [compose_markdown_instruction] returns the
    stripped text of [instruction.md] in the version directory with the
    largest number among those that hold one, which need not be the latest
    version; it raises the not-found error when no version directory holds
    one. *)
Theorem markdown_search_highest_first (w : World) (p : string)
    (v : option string) (ctx : gmap string pyobj) (vds : list string) :
  p <> "" -> given v = None ->
  exists_ w (INSTRUCTIONS_DIR w </> p) = true ->
  version_dirs w (INSTRUCTIONS_DIR w </> p) = Ok vds ->
  Forall numbered vds ->
  let has_md := fun d =>
    exists_ w (INSTRUCTIONS_DIR w </> p </> d </> "instruction.md") in
  (Forall (fun d => has_md d = false) vds ->
   compose_markdown_instruction w p v ctx
   = Raise (FileNotFoundError
              ("No instruction.md found in any version of " +:+ p)))
  /\ (Exists (fun d => has_md d = true) vds ->
      exists d, In d vds /\ has_md d = true
                /\ (forall d', In d' vds -> has_md d' = true ->
                                zkey d' <= zkey d)
                /\ compose_markdown_instruction w p v ctx
                   = do text <- read_text w (INSTRUCTIONS_DIR w </> p </> d
                                             </> "instruction.md");
                     Ok (PyStr.strip text)).
Proof.
  intros Hp Hg He Hv Hall has_md. apply String.eqb_neq in Hp.
  destruct (search_spec has_md vds Hall) as (s & Hs & Hf).
  unfold compose_markdown_instruction, instruction_md_path.
  rewrite Hp, Hg, He. step Hv. step Hs. fold has_md.
  destruct (List.find has_md s) as [d|].
  - destruct Hf as (Hin & Hd & Hmax). split.
    + intros Hno. rewrite Forall_forall in Hno.
      apply list_elem_of_In in Hin. specialize (Hno _ Hin). congruence.
    + intros _. exists d. repeat split; try done.
      cbn [bind]. unfold has_md in Hd. by rewrite Hd.
  - split; [done|]. intros Hex. apply Exists_exists in Hex as (d & Hd & Ht).
    rewrite Forall_forall in Hf. specialize (Hf _ Hd). cbn in Hf. congruence.
Qed.

Lemma markdown_search_highest_first_witness :
  exists d,
    In d ["v3"; "v1"; "v2"]
    /\ exists_ Trees.static_versions ("/srv" </> "doc" </> d </> "instruction.md")
       = true
    /\ (forall d', In d' ["v3"; "v1"; "v2"] ->
          exists_ Trees.static_versions
            ("/srv" </> "doc" </> d' </> "instruction.md") = true ->
          zkey d' <= zkey d)
    /\ compose_markdown_instruction Trees.static_versions "doc" None ∅
       = do text <- read_text Trees.static_versions
                      ("/srv" </> "doc" </> d </> "instruction.md");
         Ok (PyStr.strip text).
Proof.
  refine (proj2 (markdown_search_highest_first Trees.static_versions "doc" None
                   ∅ ["v3"; "v1"; "v2"] _ _ _ _ _) _).
  - done.
  - reflexivity.
  - vm_compute; reflexivity.
  - vm_compute; reflexivity.
  - repeat constructor.
  - apply Exists_cons_tl, Exists_cons_hd. vm_compute; reflexivity.
Defined.

Example second_version_is_read :
  compose_markdown_instruction Trees.static_versions "doc" None ∅ = Ok "second".
Proof. vm_compute. reflexivity. Qed.

(** ** The latest version and the search agree *)

Lemma append_assoc (a b c : string) : (a +:+ b) +:+ c = a +:+ (b +:+ c).
Proof.
  induction a as [|x a IH]; [done|].
  change (String x ((a +:+ b) +:+ c) = String x (a +:+ (b +:+ c))).
  by rewrite IH.
Qed.

Lemma joinpath_assoc (a b c : string) : a </> (b </> c) = a </> b </> c.
Proof. unfold joinpath. rewrite !append_assoc. reflexivity. Qed.

Lemma hd_insert_desc (x d : string * Z) (l : list (string * Z)) :
  hd d (insert_desc x l)
  = match l with
    | [] => x
    | h :: _ => if h.2 <=? x.2 then x else h
    end.
Proof. destruct l as [|h r]; cbn; [done|]. by destruct (h.2 <=? x.2). Qed.

Lemma max_from_sorted_head (r : list (string * Z)) : forall x,
  max_from x r = hd x (sort_desc (x :: r)).
Proof.
  induction r as [|y r IH]; intros x; [done|].
  cbn [max_from]. rewrite IH.
  change (sort_desc (x :: y :: r))
    with (insert_desc x (insert_desc y (sort_desc r))).
  change (sort_desc ((if x.2 <? y.2 then y else x) :: r))
    with (insert_desc (if x.2 <? y.2 then y else x) (sort_desc r)).
  rewrite !hd_insert_desc.
  destruct (sort_desc r) as [|h s]; cbn [insert_desc].
  - destruct (Z.ltb_spec x.2 y.2), (Z.leb_spec y.2 x.2); try done; lia.
  - destruct (Z.ltb_spec x.2 y.2), (Z.leb_spec h.2 y.2); cbn;
      repeat match goal with
             | |- context [?a <=? ?b] => destruct (Z.leb_spec a b)
             end; try done; lia.
Qed.

Lemma py_max_is_sorted_head (names : list string) :
  names <> [] -> Forall numbered names ->
  exists d rest, py_max names = Ok d /\ sorted_desc names = Ok (d :: rest).
Proof.
  intros Hne Hall. unfold py_max, sorted_desc.
  rewrite (keyed_numbered _ Hall). cbn [bind].
  destruct names as [|n r]; [done|]. cbn [map].
  rewrite max_from_sorted_head.
  pose proof (sort_desc_perm ((n, zkey n) :: map (fun n => (n, zkey n)) r))
    as Hp.
  destruct (sort_desc ((n, zkey n) :: map (fun n => (n, zkey n)) r))
    as [|h s].
  - by apply Permutation_nil_l in Hp.
  - cbn. by exists h.1, (map fst s).
Qed.

(** X10. Without a version, the directory that [render_instruction] inspects
    is the first one the renderers try: when the latest version directory
    holds [instruction.j2] the template renderer takes the template of that
    directory, and when it holds [instruction.md] the static loader takes the
    document of that directory. *)
Theorem dispatcher_and_search_agree (w : World) (p : string)
    (vds : list string) :
  exists_ w (INSTRUCTIONS_DIR w </> p) = true ->
  version_dirs w (INSTRUCTIONS_DIR w </> p) = Ok vds ->
  vds <> [] -> Forall numbered vds ->
  exists latest,
    base_path w p None = Ok (INSTRUCTIONS_DIR w </> p </> latest)
    /\ (exists_ w (INSTRUCTIONS_DIR w </> p </> latest </> "instruction.j2") = true ->
        template_path w p None = Ok (p </> latest </> "instruction.j2"))
    /\ (exists_ w (INSTRUCTIONS_DIR w </> p </> latest </> "instruction.md") = true ->
        instruction_md_path w p None
        = Ok (INSTRUCTIONS_DIR w </> p </> latest </> "instruction.md")).
Proof.
  intros He Hv Hne Hall.
  destruct (py_max_is_sorted_head vds Hne Hall) as (d & rest & Hm & Hs).
  exists d. split; [|split].
  - unfold base_path. cbn [given]. rewrite He. step Hv.
    destruct vds; [done|]. by step Hm.
  - intros Hx. unfold template_path. cbn [given]. rewrite He. step Hv. step Hs.
    cbn [List.find]. by rewrite !joinpath_assoc, Hx.
  - intros Hx. unfold instruction_md_path. cbn [given]. rewrite He.
    step Hv. step Hs. cbn [List.find]. by rewrite Hx.
Qed.

Lemma dispatcher_and_search_agree_witness :
  exists latest,
    base_path Trees.tied_versions "tie" None = Ok ("/srv" </> "tie" </> latest)
    /\ (exists_ Trees.tied_versions
          ("/srv" </> "tie" </> latest </> "instruction.j2") = true ->
        template_path Trees.tied_versions "tie" None
        = Ok ("tie" </> latest </> "instruction.j2"))
    /\ (exists_ Trees.tied_versions
          ("/srv" </> "tie" </> latest </> "instruction.md") = true ->
        instruction_md_path Trees.tied_versions "tie" None
        = Ok ("/srv" </> "tie" </> latest </> "instruction.md")).
Proof.
  refine (dispatcher_and_search_agree Trees.tied_versions "tie"
            ["v0"; "v01"; "v1"] _ _ _ _);
    [vm_compute; reflexivity | vm_compute; reflexivity | done
     | repeat constructor].
Defined.

(** *** Equal keys *)

Lemma max_from_keeps (l : list (string * Z)) : forall best,
  (forall x, In x l -> x.2 <= best.2) -> max_from best l = best.
Proof.
  induction l as [|y r IH]; intros best H; [done|]. cbn [max_from].
  destruct (Z.ltb_spec best.2 y.2) as [Hlt|_].
  - specialize (H y (or_introl eq_refl)). lia.
  - apply IH. intros x Hx. apply H. by right.
Qed.

Lemma max_from_first (l1 : list (string * Z)) : forall best d l2,
  best.2 < d.2 ->
  (forall x, In x l1 -> x.2 < d.2) ->
  (forall x, In x l2 -> x.2 <= d.2) ->
  max_from best (l1 ++ d :: l2) = d.
Proof.
  induction l1 as [|y r IH]; intros best d l2 Hb H1 H2; cbn [app max_from].
  - destruct (Z.ltb_spec best.2 d.2); [|lia]. by apply max_from_keeps.
  - apply IH; [|intros x Hx; apply H1; by right|done].
    destruct (best.2 <? y.2); [apply H1; by left|done].
Qed.

(** X11. [max] keeps the first of the directories with the largest key: a
    directory is the latest version when every directory listed before it has
    a strictly smaller number and none listed after it has a larger one.  So,
    of [v01] and [v1], the one listed first is taken. *)
Theorem latest_is_first_of_maxima (l1 l2 : list string) (d : string) :
  Forall numbered (l1 ++ d :: l2) ->
  (forall n, In n l1 -> zkey n < zkey d) ->
  (forall n, In n l2 -> zkey n <= zkey d) ->
  py_max (l1 ++ d :: l2) = Ok d.
Proof.
  intros Hall H1 H2. unfold py_max. rewrite (keyed_numbered _ Hall).
  cbn [bind]. set (f := fun n => (n, zkey n)).
  rewrite map_app. cbn [map].
  assert (H2' : forall x, In x (map f l2) -> x.2 <= (f d).2).
  { intros x (n & <- & Hn)%in_map_iff. cbn. by apply H2. }
  destruct l1 as [|a r]; cbn [map app].
  - by rewrite max_from_keeps.
  - rewrite (max_from_first (map f r) (f a) (f d) (map f l2)); [done| | |done].
    + cbn. apply H1. by left.
    + intros x (n & <- & Hn)%in_map_iff. cbn. apply H1. by right.
Qed.

Lemma latest_is_first_of_maxima_witness :
  py_max (["v0"] ++ "v01" :: ["v1"]) = Ok "v01".
Proof.
  apply latest_is_first_of_maxima.
  - repeat constructor.
  - intros n [<-|[]]. vm_compute. reflexivity.
  - intros n [<-|[]]. vm_compute. discriminate.
Defined.

Example tie_goes_to_first_listed :
  render_instruction Trees.tied_versions "tie" None ∅ = Ok "from v01".
Proof. vm_compute. reflexivity. Qed.

(** ** Values of the latest version *)



Example old_template_new_values :
  template_path Trees.values_of_latest "tone" None = Ok "tone/v1/instruction.j2"
  /\ render_template_instruction Trees.values_of_latest "tone" None ∅
     = Ok "Be formal"
  /\ render_template_instruction Trees.values_of_latest "tone" (Some "v1") ∅
     = Ok "Be casual".
Proof. repeat split; vm_compute; reflexivity. Qed.

(** ** A directory that is no version *)

(** X13. Without a version, one child directory whose name starts with [v]
    and whose suffix is no integer literal makes every entry point and both
    loaders raise [ValueError], whatever else the instruction directory
    holds. *)
Theorem unnumbered_directory_raises (w : World) (p : string)
    (ctx : gmap string pyobj) (vds : list string) :
  p <> "" ->
  exists_ w (INSTRUCTIONS_DIR w </> p) = true ->
  version_dirs w (INSTRUCTIONS_DIR w </> p) = Ok vds ->
  Exists (fun n => ~ numbered n) vds ->
  is_value_error (render_instruction w p None ctx) = true
  /\ is_value_error (render_template_instruction w p None ctx) = true
  /\ is_value_error (compose_python_instruction w p None ctx) = true
  /\ is_value_error (compose_markdown_instruction w p None ctx) = true
  /\ is_value_error (_load_instruction_variables w p None) = true
  /\ is_value_error (_load_instruction_composables w p None) = true.
Proof.
  intros Hp He Hv Hx. apply String.eqb_neq in Hp.
  destruct (keyed_unnumbered _ Hx) as [msg Hk].
  assert (Hne : exists n r, vds = n :: r).
  { destruct vds as [|n r]; [by apply Exists_nil in Hx|by exists n, r]. }
  destruct Hne as (n & r & E).
  assert (Hmax : py_max vds = Raise (ValueError msg)).
  { unfold py_max. by rewrite Hk. }
  assert (Hsort : sorted_desc vds = Raise (ValueError msg)).
  { unfold sorted_desc. by rewrite Hk. }
  assert (Hc : _load_instruction_composables w p None = Raise (ValueError msg)).
  { unfold _load_instruction_composables, composables_path. cbn [given].
    rewrite He. step Hv. rewrite E in *. by rewrite Hmax. }
  repeat split.
  - unfold render_instruction, base_path. cbn [given]. rewrite He. step Hv.
    rewrite E in *. by rewrite Hmax.
  - unfold render_template_instruction, template_path. cbn [given].
    rewrite Hp, He. step Hv. by rewrite Hsort.
  - unfold compose_python_instruction. by rewrite Hp, Hc.
  - unfold compose_markdown_instruction, instruction_md_path. cbn [given].
    rewrite Hp, He. step Hv. by rewrite Hsort.
  - unfold _load_instruction_variables, values_path. cbn [given].
    rewrite He. cbn [negb]. step Hv. rewrite E in *. by rewrite Hmax.
  - by rewrite Hc.
Qed.

Lemma unnumbered_directory_raises_witness :
  is_value_error (render_instruction Fixture.with_venv "greet" None ∅) = true
  /\ is_value_error (render_template_instruction Fixture.with_venv "greet" None ∅)
     = true
  /\ is_value_error (compose_python_instruction Fixture.with_venv "greet" None ∅)
     = true
  /\ is_value_error (compose_markdown_instruction Fixture.with_venv "greet" None ∅)
     = true
  /\ is_value_error (_load_instruction_variables Fixture.with_venv "greet" None)
     = true
  /\ is_value_error (_load_instruction_composables Fixture.with_venv "greet" None)
     = true.
Proof.
  refine (unnumbered_directory_raises Fixture.with_venv "greet" ∅
            ["v1"; "venv"] _ _ _ _);
    [done | vm_compute; reflexivity | vm_compute; reflexivity |].
  apply Exists_cons_tl, Exists_cons_hd. vm_compute. discriminate.
Defined.

(** ** An explicit version, end to end *)

(** X16. With an explicit version, [render_instruction] lists no directory:
    when the version directory holds [instruction.j2] the result is the
    stripped render of the template of that name with the values of that
    version and the keywords of the caller; when it holds none of
    [instruction.j2], [instruction.py] and [composables.py] but holds
    [instruction.md], the result is the stripped text of that file. *)
Theorem explicit_version_end_to_end (w : World) (p ver : string)
    (ctx : gmap string pyobj) :
  p <> "" -> ver <> "" ->
  (exists_ w (INSTRUCTIONS_DIR w </> p </> ver </> "instruction.j2") = true ->
   render_instruction w p (Some ver) ctx
   = do t <- get_template w (p </> ver </> "instruction.j2");
     do vars <- _load_instruction_variables w p (Some ver);
     do out <- jinja_render env t (merge_context vars ctx);
     Ok (PyStr.strip out))
  /\ (exists_ w (INSTRUCTIONS_DIR w </> p </> ver </> "instruction.j2") = false ->
      exists_ w (INSTRUCTIONS_DIR w </> p </> ver </> "instruction.py") = false ->
      exists_ w (INSTRUCTIONS_DIR w </> p </> ver </> "composables.py") = false ->
      exists_ w (INSTRUCTIONS_DIR w </> p </> ver </> "instruction.md") = true ->
      render_instruction w p (Some ver) ctx
      = do text <- read_text w (INSTRUCTIONS_DIR w </> p </> ver
                                </> "instruction.md");
        Ok (PyStr.strip text)).
Proof.
  intros Hp Hv. apply String.eqb_neq in Hp.
  pose proof (given_nonempty ver Hv) as Hg.
  unfold render_instruction, base_path. rewrite Hg. cbn [bind]. split.
  - intros ->. unfold render_template_instruction, template_path.
    by rewrite Hp, Hg.
  - intros -> -> -> Hm. cbn [orb]. rewrite Hm.
    unfold compose_markdown_instruction, instruction_md_path.
    rewrite Hp, Hg. cbn [bind]. by rewrite Hm.
Qed.

Lemma explicit_version_end_to_end_witness :
  render_instruction Trees.static_versions "doc" (Some "v1") ∅
  = do text <- read_text Trees.static_versions
                 ("/srv" </> "doc" </> "v1" </> "instruction.md");
    Ok (PyStr.strip text).
Proof.
  refine (proj2 (explicit_version_end_to_end Trees.static_versions "doc" "v1" ∅
                   _ _) _ _ _ _); [done | done | vm_compute; reflexivity ..].
Defined.

(** ** The module loader *)



(** X18. For an instruction directory without version directories the two
    composables loaders differ: the module loader returns [None] at once,
    whatever the importer and the directory hold, while the mapping loader
    goes on to [composables.py] in the instruction directory itself. *)
Theorem module_loader_skips_unversioned (w : World)
    (import_module : string -> result (gmap string pyobj)) (p : string) :
  exists_ w (INSTRUCTIONS_DIR w </> p) = true ->
  version_dirs w (INSTRUCTIONS_DIR w </> p) = Ok [] ->
  _load_instruction_composables_module w import_module p None = Ok None
  /\ composables_path w p None
     = Ok (Some (INSTRUCTIONS_DIR w </> p </> "composables.py")).
Proof.
  intros He Hv. split.
  - unfold _load_instruction_composables_module, module_version_name.
    cbn [given]. rewrite He. cbn [negb]. by step Hv.
  - unfold composables_path. cbn [given]. rewrite He. by step Hv.
Qed.

Lemma module_loader_skips_unversioned_witness :
  _load_instruction_composables_module Fixture.unversioned Trees.importer
    "flat" None = Ok None
  /\ composables_path Fixture.unversioned "flat" None
     = Ok (Some ("/srv" </> "flat" </> "composables.py")).
Proof.
  apply module_loader_skips_unversioned; vm_compute; reflexivity.
Defined.

(** X19. With an explicit version and a package import that raises an
    [Exception], the two composables loaders agree: the mapping loader
    returns the public callables of the very module the module loader
    returns, the empty mapping when that loader returns [None], and it raises
    what that loader raises. *)
Theorem loaders_agree_without_package (w : World)
    (import_module : string -> result (gmap string pyobj)) (p ver : string) :
  ver <> "" ->
  (forall name, exists e, import_module name = Raise e
                          /\ is_exception e = true) ->
  _load_instruction_composables w p (Some ver)
  = do om <- _load_instruction_composables_module w import_module p (Some ver);
    Ok (match om with
        | Some m => filter (fun kv => public_callable kv.1 kv.2 = true) m
        | None => ∅
        end).
Proof.
  intros Hv Hi. pose proof (given_nonempty ver Hv) as Hg.
  unfold _load_instruction_composables_module, module_version_name,
    _load_instruction_composables, composables_path.
  rewrite Hg. cbn [bind].
  destruct (exists_ w _); cbn [negb]; [|done].
  destruct (Hi (package_path p ver)) as (e & -> & ->).
  change (load_file w load_module_imports) with (exec_module w).
  change (load_file w load_composables_imports) with (exec_module w).
  destruct (exec_module w _ _) as [m|e']; [done|].
  by destruct (is_exception e').
Qed.

Lemma loaders_agree_without_package_witness :
  _load_instruction_composables Trees.both_composers "both" (Some "v1")
  = do om <- _load_instruction_composables_module Trees.both_composers
               (fun name => Raise (OtherError "ModuleNotFoundError" name))
               "both" (Some "v1");
    Ok (match om with
        | Some m => filter (fun kv => public_callable kv.1 kv.2 = true) m
        | None => ∅
        end).
Proof.
  apply loaders_agree_without_package; [done|].
  intros name. by eexists.
Defined.

(** ** The assistant instruction *)

Section AssistantLayout.

Import Assistant.

Variables OP AC HR BF CG : string.

Lemma components_layout
    (sb sk at_ ho tc mcp drc ia : option string) :
  components OP AC HR BF CG sb sk at_ ho tc mcp drc ia
  = (supplied sb ++ [OP; AC]
     ++ match given sb with
        | Some _ => supplied sk ++ [HR]
        | None => [HR] ++ supplied sk
        end
     ++ [BF; CG] ++ supplied at_ ++ supplied ho ++ supplied tc
     ++ supplied mcp ++ supplied drc ++ supplied ia)%list.
Proof.
  unfold components, core, insert_if, append_if, supplied, list_insert_at.
  destruct (given sb), (given sk), (given at_), (given ho), (given tc),
    (given mcp), (given drc), (given ia); reflexivity.
Qed.

(** X20. The layout of the assistant instruction.  The supplied system
    blocks come first and the supplied tools, handoffs, tool calls, servers,
    run context and appendix come last, in that order.  The agent skills sit
    at index 3 of the list: before the HR knowledge block when system blocks
    are supplied, after it when they are not.  An argument that is [None] or
    empty leaves no trace. *)
Theorem assistant_layout
    (sb sk at_ ho tc mcp drc ia : option string) :
  compose_full_instruction OP AC HR BF CG sb sk at_ ho tc mcp drc ia
  = join blank_line
      (supplied sb ++ [OP; AC]
       ++ match given sb with
          | Some _ => supplied sk ++ [HR]
          | None => [HR] ++ supplied sk
          end
       ++ [BF; CG] ++ supplied at_ ++ supplied ho ++ supplied tc
       ++ supplied mcp ++ supplied drc ++ supplied ia)%list.
Proof. unfold compose_full_instruction. by rewrite components_layout. Qed.

(** X21. Whatever is supplied, the five core blocks of the assistant
    instruction appear in their fixed order, and the number of blocks is five
    plus the number of arguments supplied. *)
Theorem assistant_core_kept
    (sb sk at_ ho tc mcp drc ia : option string) :
  [OP; AC; HR; BF; CG]
    `sublist_of` components OP AC HR BF CG sb sk at_ ho tc mcp drc ia
  /\ length (components OP AC HR BF CG sb sk at_ ho tc mcp drc ia)
     = (5 + length (supplied sb ++ supplied sk ++ supplied at_ ++ supplied ho
                    ++ supplied tc ++ supplied mcp ++ supplied drc
                    ++ supplied ia)%list)%nat.
Proof.
  rewrite components_layout. unfold supplied.
  destruct (given sb), (given sk), (given at_), (given ho), (given tc),
    (given mcp), (given drc), (given ia);
    (split; [|reflexivity]); cbn [app];
    repeat first [ apply sublist_nil_l
                 | apply sublist_skip
                 | apply sublist_cons ].
Qed.

End AssistantLayout.

Example assistant_defaults :
  Assistant.compose_full_instruction "P" "C" "H" "F" "G"
    None None None None None None None None
  = "P" +:+ Assistant.blank_line +:+ "C" +:+ Assistant.blank_line +:+ "H"
    +:+ Assistant.blank_line +:+ "F" +:+ Assistant.blank_line +:+ "G".
Proof. vm_compute. reflexivity. Qed.

Example assistant_skills_move :
  Assistant.components "P" "C" "H" "F" "G"
    None (Some "skills") None None None None None None
  = ["P"; "C"; "H"; "skills"; "F"; "G"]
  /\ Assistant.components "P" "C" "H" "F" "G"
       (Some "system") (Some "skills") None (Some "") None None None (Some "end")
     = ["system"; "P"; "C"; "skills"; "H"; "F"; "G"; "end"].
Proof. split; vm_compute; reflexivity. Qed.
